(** * Sliver: HTTP(S) session transport and port-forward dispatch

    A shallow embedding of

    - [sliver/transports/tcp-http.go]: the implant-side HTTP(S) client
      ([HTTPStartSession], [SessionInit], [getPublicKey], [getSessionID],
      [Get], [Post], [toURL], [httpClient], [httpsClient]);
    - [server/rpc/rpc-portfwd.go]: the controller-side handler
      [rpcPortfwd].

    Go code is stateful and may panic.  Both are explicit here: a
    computation is a function from a world to an [Outcome] and a new world.
    The world records every call made to the outside (HTTP round trips,
    forwards to an implant, replies to the RPC caller, log lines), so that
    statements such as "no network call is made" are statements about the
    recorded history.  Library functions that the two files call but do not
    define (the HTTP client, the crypto helpers, protobuf, the registries)
    are fields of an environment record. *)

From Stdlib Require Import ZArith List Strings.Ascii Strings.String Strings.Byte Lia.
From stdpp Require Import base option gmap strings.

Import ListNotations.
Local Open Scope string_scope.
Local Open Scope Z_scope.
Local Open Scope list_scope.

(** ** Go values shared by both files *)

Module Go.

(** [[]byte]; the nil slice and the empty slice are both [[]]. *)
Definition bytes := list byte.

(** A Go [error] value is identified with its message; the nil error is
    [None] in an [option error]. *)
Definition error := string.

Definition errors_New (msg : string) : error := msg.

(** Run-time panics the two files can raise. *)
Inductive PanicReason :=
| NilDereference      (* field access or [*p] through a nil pointer *)
| TypeAssertion.      (* single-value [x.(T)] on a value that is not a [T] *)

Inductive Outcome (A : Type) :=
| Returns (a : A)
| Panics (why : PanicReason).
Arguments Returns {A} a.
Arguments Panics {A} why.

(** State-and-panic computations over a world [W].  The world is kept on
    a panic: what was done before the panic has been done. *)
Definition Exec (W A : Type) := W -> Outcome A * W.

Definition ret {W A} (a : A) : Exec W A := fun w => (Returns a, w).

Definition panic {W A} (why : PanicReason) : Exec W A :=
  fun w => (Panics why, w).

Definition bind {W A B} (m : Exec W A) (k : A -> Exec W B) : Exec W B :=
  fun w =>
    match m w with
    | (Returns a, w') => k a w'
    | (Panics why, w') => (Panics why, w')
    end.

(** [p == nil] on a pointer. *)
Definition isNil {A} (p : option A) : bool :=
  match p with
  | None => true
  | Some _ => false
  end.

(** [time.Duration] counts nanoseconds. *)
Definition time_Second : Z := 1000000000.

End Go.

Export Go.

Declare Scope exec_scope.
Delimit Scope exec_scope with exec.
Notation "'let*' x ':=' m 'in' k" := (bind m (fun x => k))
  (at level 61, x pattern, m at next level, k at level 200,
   right associativity) : exec_scope.
Notation "m ';;;' k" := (bind m (fun _ => k))
  (at level 100, k at level 200, right associativity) : exec_scope.
Local Open Scope exec_scope.

(** ** sliver/transports/tcp-http.go *)

Module Transports.

Definition defaultTimeout : Z := time_Second * 10.
Definition defaultReqTimeout : Z := time_Second * 60.

(** *** Library data the file handles *)

(** [http.Transport], as far as [httpsClient] configures it. *)
Record HTTPTransport := {
  DialTimeout : Z;
  TLSHandshakeTimeout : Z
}.

(** [http.Client]; [Transport] is nil for [httpClient]. *)
Record HTTPClient := {
  Timeout : Z;
  Transport : option HTTPTransport
}.

(** [http.Request], the fields [http.NewRequest(method, url, body)] sets;
    a nil body is [None]. *)
Record Request := {
  Method : string;
  ReqURL : string;
  ReqBody : option bytes
}.

(** [http.Response]; [Body] is what [ioutil.ReadAll(resp.Body)] yields
    (its error is dropped by every caller). *)
Record Response := {
  StatusCode : Z;
  Body : bytes
}.

(** [url.URL], the fields [toURL] touches. *)
Record URL := {
  Scheme : string;
  Host : string;
  Path : string
}.

(** [pem.Block]. *)
Record PEMBlock := {
  PEMType : string;
  Bytes : bytes
}.

(** [rsa.PublicKey]. *)
Record RSAPublicKey := {
  N : Z;
  E : Z
}.

(** The dynamic type of [x509.Certificate.PublicKey], an [interface{}]:
    x509 yields an RSA, DSA or ECDSA key, or nil for an algorithm it does
    not know. *)
Inductive CryptoPublicKey :=
| RSAKey (k : RSAPublicKey)
| DSAKey (y : Z)
| ECDSAKey (x y : Z)
| NilKey.

(** [x509.Certificate], the field [getPublicKey] reads. *)
Record Certificate := {
  PublicKey : CryptoPublicKey
}.

(** [AESKey] is [[32]byte]. *)
Definition AESKey := bytes.

(** Lines written by [log.Printf]; every one of them sits inside a
    debug-only template block (three of the opening directives are
    spelled [{{if. Debug}}] and are read as the same guard). *)
Inductive LogLine :=
| LogInvalidPublicKey                      (* "Invalid public key" *)
| LogRSAEncryptFailed (err : error)        (* "RSA encrypt failed %v" *)
| LogFetchFailed                           (* "Failed to fetch server public key" *)
| LogPEMParseFailed                        (* "failed to parse certificate PEM" *)
| LogFingerprint (fp : string)             (* "RSA Fingerprint: %s" *)
| LogInvalidCertificate (err : option error) (* "Invalid certificate %v" *)
| LogGetFailed (err : error)               (* "[http] GET failed %v" *)
| LogPostFailed (err : error).             (* "[http] POST failed %v" *)

(** *** What the file calls and does not define *)

Record Env := {
  (** build-time template flag [.Debug] *)
  Debug : bool;
  (** state of the network and of the peer *)
  NetState : Type;
  (** state of the process's random source *)
  Entropy : Type;
  (** [http.Client.Do]: a response or a transport error *)
  Client_Do : HTTPClient -> Request -> NetState -> (Response + error) * NetState;
  RandomAESKey : Entropy -> AESKey * Entropy;
  RSAEncrypt : bytes -> RSAPublicKey -> Entropy -> (bytes * option error) * Entropy;
  GCMEncrypt : AESKey -> bytes -> Entropy -> (bytes * option error) * Entropy;
  GCMDecrypt : AESKey -> bytes -> bytes * option error;
  (** [pem.Decode], first result *)
  pem_Decode : bytes -> option PEMBlock;
  rootOnlyVerifyCertificate : list bytes -> list (list Certificate) -> option error;
  (** [x509.ParseCertificate]: nil certificate on error *)
  x509_ParseCertificate : bytes -> option Certificate;
  fingerprintSHA256 : PEMBlock -> string;
  (** [proto.Marshal(&pb.HTTPSessionInit{Key: key})], error dropped *)
  proto_Marshal_HTTPSessionInit : bytes -> bytes;
  (** [url.Parse]: nil URL on error *)
  url_Parse : string -> option URL;
  path_Join : string -> string -> string;
  URL_String : URL -> string;
  (** What [net/url] is relied on for: the string form of a parsed URL
      whose path has been replaced parses again. *)
  URL_String_parses :
    forall (origin : string) (url : URL) (urlPath : string),
      url_Parse origin = Some url ->
      url_Parse
        (URL_String {| Scheme := Scheme url; Host := Host url;
                       Path := path_Join (Path url) urlPath |}) <> None
}.

(** *** The client and its world *)

Record SliverHTTPClient := {
  Origin : string;
  Client : HTTPClient;
  SessionKey : option AESKey;
  SessionID : string
}.

Section Code.

Variable env : Env.

Record World := {
  net : NetState env;
  entropy : Entropy env;
  (** every [Client.Do] call so far, oldest first *)
  calls : list Request;
  (** every log line so far, oldest first *)
  logged : list LogLine
}.

Definition Run (A : Type) := Exec World A.

(** [http.NewRequest]: it parses the URL with [url.Parse] and returns a
    nil request when that fails.  Every caller drops the error.  The
    methods used in this file are valid. *)
Definition http_NewRequest (method url : string) (body : option bytes)
  : option Request :=
  match url_Parse env url with
  | None => None
  | Some _ => Some {| Method := method; ReqURL := url; ReqBody := body |}
  end.

(** [s.Client.Do(req)]: on a nil request it panics, reading [req.URL],
    before anything is sent. *)
Definition Do (c : HTTPClient) (req : option Request)
  : Run (Response + error) :=
  match req with
  | None => panic NilDereference
  | Some req =>
      fun w =>
        let (r, n) := Client_Do env c req (net w) in
        (Returns r,
         {| net := n; entropy := entropy w;
            calls := calls w ++ [req]; logged := logged w |})
  end.

Definition log_Printf (l : LogLine) : Run unit :=
  fun w =>
    (Returns tt,
     if Debug env
     then {| net := net w; entropy := entropy w;
             calls := calls w; logged := logged w ++ [l] |}
     else w).

Definition draw {A} (f : Entropy env -> A * Entropy env) : Run A :=
  fun w =>
    let (a, e) := f (entropy w) in
    (Returns a,
     {| net := net w; entropy := e;
        calls := calls w; logged := logged w |}).

Definition httpClient (address : string) : SliverHTTPClient :=
  {| Origin := "http://" +:+ address;
     Client := {| Timeout := defaultReqTimeout; Transport := None |};
     SessionKey := None;
     SessionID := "" |}.

Definition httpsClient (address : string) : SliverHTTPClient :=
  let netTransport :=
    {| DialTimeout := defaultTimeout;
       TLSHandshakeTimeout := defaultTimeout |} in
  {| Origin := "https://" +:+ address;
     Client := {| Timeout := defaultReqTimeout;
                  Transport := Some netTransport |};
     SessionKey := None;
     SessionID := "" |}.

Definition toURL (s : SliverHTTPClient) (urlPath : string) : Run string :=
  match url_Parse env (Origin s) with
  | None => panic NilDereference
  | Some url =>
      let url' := {| Scheme := Scheme url; Host := Host url;
                     Path := path_Join env (Path url) urlPath |} in
      ret (URL_String env url')
  end.

Definition getPublicKey (s : SliverHTTPClient) : Run (option RSAPublicKey) :=
  let req := http_NewRequest "GET" (Origin s +:+ "/rsakey") None in
  let* r := Do (Client s) req in
  match r with
  | inr err => log_Printf LogFetchFailed ;;; ret None
  | inl resp =>
      if negb (Z.eqb (StatusCode resp) 200)
      then log_Printf LogFetchFailed ;;; ret None
      else
        let data := Body resp in
        match pem_Decode env data with
        | None => log_Printf LogPEMParseFailed ;;; ret None
        | Some pubKeyBlock =>
            log_Printf (LogFingerprint (fingerprintSHA256 env pubKeyBlock)) ;;;
            match rootOnlyVerifyCertificate env [Bytes pubKeyBlock] [] with
            | None =>
                match x509_ParseCertificate env (Bytes pubKeyBlock) with
                | None => panic NilDereference
                | Some cert =>
                    match PublicKey cert with
                    | RSAKey k => ret (Some k)
                    | _ => panic TypeAssertion
                    end
                end
            | Some certErr =>
                (* the line prints [err], which is nil here, not [certErr] *)
                log_Printf (LogInvalidCertificate None) ;;; ret None
            end
        end
  end.

Definition getSessionID (s : SliverHTTPClient) (sessionInit : bytes)
  : Run (option error * SliverHTTPClient) :=
  let* u := toURL s "/start" in
  let req := http_NewRequest "POST" u (Some sessionInit) in
  let* r := Do (Client s) req in
  match r with
  | inr err => ret (Some err, s)
  | inl resp =>
      let respData := Body resp in
      match SessionKey s with
      | None => panic NilDereference
      | Some key =>
          let (sessionID, err) := GCMDecrypt env key respData in
          match err with
          | Some e => ret (Some e, s)
          | None =>
              ret (None,
                   {| Origin := Origin s; Client := Client s;
                      SessionKey := SessionKey s;
                      SessionID := string_of_list_byte sessionID |})
          end
      end
  end.

Definition SessionInit (s : SliverHTTPClient)
  : Run (option error * SliverHTTPClient) :=
  let* publicKey := getPublicKey s in
  match publicKey with
  | None =>
      log_Printf LogInvalidPublicKey ;;;
      ret (Some (errors_New "error"), s)
  | Some pk =>
      let* skey := draw (RandomAESKey env) in
      let s := {| Origin := Origin s; Client := Client s;
                  SessionKey := Some skey; SessionID := SessionID s |} in
      let data := proto_Marshal_HTTPSessionInit env skey in
      let* enc := draw (RSAEncrypt env data pk) in
      let (encryptedSessionInit, err) := (enc : bytes * option error) in
      match err with
      | Some e => log_Printf (LogRSAEncryptFailed e) ;;; ret (Some e, s)
      | None =>
          let* r := getSessionID s encryptedSessionInit in
          let (err, s) := (r : option error * SliverHTTPClient) in
          match err with
          | Some e => ret (Some e, s)
          | None => ret (None, s)
          end
      end
  end.

Definition Get (s : SliverHTTPClient) (urlPath : string)
  : Run (bytes * option error) :=
  if (String.eqb (SessionID s) "" || isNil (SessionKey s))%bool
  then ret ([], Some (errors_New "no session"))
  else
    let* u := toURL s urlPath in
    let req := http_NewRequest "GET" u None in
    let* r := Do (Client s) req in
    match r with
    | inr err => log_Printf (LogGetFailed err) ;;; ret ([], Some err)
    | inl resp =>
        if negb (Z.eqb (StatusCode resp) 200)
        then ret ([], Some (errors_New "Non-200 response code"))
        else
          let respData := Body resp in
          match SessionKey s with
          | None => panic NilDereference
          | Some key => ret (GCMDecrypt env key respData)
          end
    end.

Definition Post (s : SliverHTTPClient) (urlPath : string) (data : bytes)
  : Run (bytes * option error) :=
  if (String.eqb (SessionID s) "" || isNil (SessionKey s))%bool
  then ret ([], Some (errors_New "no session"))
  else
    match SessionKey s with
    | None => panic NilDereference
    | Some key =>
        let* enc := draw (GCMEncrypt env key data) in
        (* [err] of the encryption is overwritten by the next [:=] *)
        let (reqData, _) := (enc : bytes * option error) in
        let* u := toURL s urlPath in
        let req := http_NewRequest "POST" u (Some reqData) in
        let* r := Do (Client s) req in
        match r with
        | inr err => log_Printf (LogPostFailed err) ;;; ret ([], Some err)
        | inl resp =>
            if negb (Z.eqb (StatusCode resp) 200)
            then ret ([], Some (errors_New "Non-200 response code"))
            else
              let respData := Body resp in
              ret (GCMDecrypt env key respData)
        end
    end.

Definition HTTPStartSession (address : string)
  : Run (option SliverHTTPClient * option error) :=
  let client := httpsClient address in
  let* r := SessionInit client in
  let (err, client) := (r : option error * SliverHTTPClient) in
  match err with
  | Some _ =>
      let client := httpClient address in   (* fallback to insecure HTTP *)
      let* r := SessionInit client in
      let (err, client) := (r : option error * SliverHTTPClient) in
      match err with
      | Some e => ret (None, Some e)
      | None => ret (Some client, None)
      end
  | None => ret (Some client, None)
  end.

End Code.

End Transports.

(** ** Vocabulary for statements about the client *)

Module TransportsSpec.

Import Transports.

(** The key-fetch request of [getPublicKey], once built. *)
Definition rsakeyRequest (s : SliverHTTPClient) : Request :=
  Build_Request "GET" (Origin s +:+ "/rsakey") None.

(** The same client holding another session key. *)
Definition withKey (k : option AESKey) (s : SliverHTTPClient) : SliverHTTPClient :=
  {| Origin := Origin s; Client := Client s;
     SessionKey := k; SessionID := SessionID s |}.

Section World.

Variable env : Env.

(** The answer to the key-fetch round trip of [getPublicKey], when its
    request could be built: with a nil request there is no round trip. *)
Definition keyFetch (s : SliverHTTPClient) (w : World env)
  : option ((Response + error) * NetState env) :=
  match http_NewRequest env "GET" (Origin s +:+ "/rsakey") None with
  | None => None
  | Some req => Some (Client_Do env (Client s) req (net env w))
  end.

(** The world once the key-fetch round trip has been made. *)
Definition afterFetch (s : SliverHTTPClient) (w : World env) : World env :=
  {| net := snd (Client_Do env (Client s) (rsakeyRequest s) (net env w));
     entropy := entropy env w;
     calls := calls env w ++ [rsakeyRequest s];
     logged := logged env w |}.

(** The world with [lines] logged, in a debug build. *)
Definition withLog (lines : list LogLine) (w : World env) : World env :=
  if Debug env
  then {| net := net env w; entropy := entropy env w;
          calls := calls env w; logged := logged env w ++ lines |}
  else w.

(** The ways the key-fetch stage fails, each with the lines a debug
    build logs inside [getPublicKey]. *)
Inductive KeyFetchFailure (s : SliverHTTPClient) (w : World env)
  : list LogLine -> Prop :=
| TransportError (e : error) n :
    keyFetch s w = Some (inr e, n) ->
    KeyFetchFailure s w [LogFetchFailed]
| NonSuccessStatus resp n :
    keyFetch s w = Some (inl resp, n) ->
    StatusCode resp <> 200 ->
    KeyFetchFailure s w [LogFetchFailed]
| PEMParseFailure resp n :
    keyFetch s w = Some (inl resp, n) ->
    StatusCode resp = 200 ->
    pem_Decode env (Body resp) = None ->
    KeyFetchFailure s w [LogPEMParseFailed]
| VerificationFailure resp n blk certErr :
    keyFetch s w = Some (inl resp, n) ->
    StatusCode resp = 200 ->
    pem_Decode env (Body resp) = Some blk ->
    rootOnlyVerifyCertificate env [Bytes blk] [] = Some certErr ->
    KeyFetchFailure s w
      [LogFingerprint (fingerprintSHA256 env blk); LogInvalidCertificate None].

(** The handshake POST of [getSessionID]. *)
Definition startRequest (url : URL) (sessionInit : bytes) : Request :=
  Build_Request "POST"
    (URL_String env
       {| Scheme := Scheme url; Host := Host url;
          Path := path_Join env (Path url) "/start" |})
    (Some sessionInit).

(** What [HTTPStartSession] returns for the outcome of its fallback
    attempt. *)
Definition fallbackResult
    (r : Outcome (option error * SliverHTTPClient) * World env)
  : Outcome (option SliverHTTPClient * option error) * World env :=
  match r with
  | (Returns (None, c), w) => (Returns (Some c, None), w)
  | (Returns (Some e, _), w) => (Returns (None, Some e), w)
  | (Panics why, w) => (Panics why, w)
  end.

End World.

Arguments fallbackResult {env} r.
Arguments keyFetch {env} s w.
Arguments afterFetch {env} s w.
Arguments withLog {env} lines w.
Arguments KeyFetchFailure {env} s w _.

End TransportsSpec.

(** ** server/rpc/rpc-portfwd.go *)

Module Rpc.

(** [sliverpb.PortFwdReq]; [SliverID] is a uint32 and [TunnelID] a
    uint64, both carried unchanged. *)
Record PortFwdReq := {
  Host : string;
  Port : Z;
  SliverID : Z;
  TunnelID : Z
}.

(** [core.Sliver], as far as the handler reads it. *)
Module Sliver.
Record t := { ID : Z; Name : string }.
End Sliver.

(** [core.tunnel], as far as the handler reads it. *)
Module Tunnel.
Record t := { ID : Z; Owner : Z }.
End Tunnel.

(** One call of [sliver.Request(msgType, timeout, data)]. *)
Record Forward := {
  To : Sliver.t;
  MsgType : Z;
  Wait : Z;
  Payload : bytes
}.

(** One line of [rpcLog.Info]. *)
Inductive InfoLine :=
| InfoRequestingForward (sliverID : Z) (host : string) (port : Z).

Record Env := {
  (** state of the connected implants *)
  ImplantState : Type;
  (** [proto.Unmarshal] into a fresh [PortFwdReq]; the handler drops
      the error and goes on with whatever was decoded *)
  proto_Unmarshal : bytes -> PortFwdReq;
  proto_Marshal : PortFwdReq -> bytes * option error;
  (** [Sliver.Request]: the reply bytes and the error of one
      round trip to an implant *)
  Sliver_Request :
    Sliver.t -> Z -> Z -> bytes -> ImplantState ->
    (bytes * option error) * ImplantState;
  (** [sliverpb.MsgPortfwdReq] *)
  MsgPortfwdReq : Z;
  (** the package constant [defaultTimeout] *)
  defaultTimeout : Z
}.

Section Code.

Variable env : Env.

Record World := {
  (** [core.Hive]: implant ID to implant *)
  hive : gmap Z Sliver.t;
  (** [core.Tunnels]: tunnel ID to tunnel *)
  tunnels : gmap Z Tunnel.t;
  implants : ImplantState env;
  (** every [sliver.Request] so far, oldest first *)
  forwarded : list Forward;
  (** every [resp(data, err)] so far, oldest first *)
  replied : list (bytes * option error);
  info : list InfoLine
}.

Definition Run (A : Type) := Exec World A.

(** Modelled from the spec: [core.Hive.Sliver] is defined outside the
    handler's file.  The spec presents the implant registry as a lookup
    capability over existing handles; a miss is the nil handle. *)
Definition Hive_Sliver (sliverID : Z) : Run (option Sliver.t) :=
  fun w => (Returns (hive w !! sliverID), w).

(** Modelled from the spec: [core.Tunnels.Tunnel] is defined outside the
    handler's file.  The spec presents the tunnel registry as a lookup
    capability over existing handles; a miss is the nil handle. *)
Definition Tunnels_Tunnel (tunnelID : Z) : Run (option Tunnel.t) :=
  fun w => (Returns (tunnels w !! tunnelID), w).

(** The [resp] callback handed to the handler. *)
Definition resp (data : bytes) (err : option error) : Run unit :=
  fun w =>
    (Returns tt,
     {| hive := hive w; tunnels := tunnels w; implants := implants w;
        forwarded := forwarded w;
        replied := replied w ++ [(data, err)];
        info := info w |}).

Definition rpcLog_Info (l : InfoLine) : Run unit :=
  fun w =>
    (Returns tt,
     {| hive := hive w; tunnels := tunnels w; implants := implants w;
        forwarded := forwarded w; replied := replied w;
        info := info w ++ [l] |}).

Definition Request (sliver : Sliver.t) (msgType timeout : Z) (data : bytes)
  : Run (bytes * option error) :=
  fun w =>
    let (r, i) := Sliver_Request env sliver msgType timeout data (implants w) in
    (Returns r,
     {| hive := hive w; tunnels := tunnels w; implants := i;
        forwarded := forwarded w ++
          [{| To := sliver; MsgType := msgType; Wait := timeout;
              Payload := data |}];
        replied := replied w;
        info := info w |}).

(** [p.f] through a pointer [p]. *)
Definition deref {A} (p : option A) : Run A :=
  match p with
  | None => panic NilDereference
  | Some a => ret a
  end.

Definition rpcPortfwd (req : bytes) : Run unit :=
  let pfwdReq := proto_Unmarshal env req in
  let* sliver := Hive_Sliver (SliverID pfwdReq) in
  let* tunnel := Tunnels_Tunnel (TunnelID pfwdReq) in
  let* sliver_v := deref sliver in        (* sliver.ID *)
  let* tunnel_v := deref tunnel in        (* tunnel.ID *)
  let (startPortFwdReq, err) :=
    proto_Marshal env
      {| Host := Host pfwdReq;
         Port := Port pfwdReq;
         SliverID := Sliver.ID sliver_v;
         TunnelID := Tunnel.ID tunnel_v |} in
  match err with
  | Some e => resp [] (Some e)
  | None =>
      rpcLog_Info (InfoRequestingForward (Sliver.ID sliver_v)
                     (Host pfwdReq) (Port pfwdReq)) ;;;
      let* r := Request sliver_v (MsgPortfwdReq env) (defaultTimeout env)
                  startPortFwdReq in
      let (data, err) := (r : bytes * option error) in
      resp data err
  end.

End Code.

End Rpc.

(** ** Concrete environments

    Small executable instances of the two environment records, on which the
    code can be run: a toy wire format, a toy cipher and scripted peers. *)

Module RpcDemo.

Import Rpc.

Definition byte_of_Z (z : Z) : byte :=
  match Byte.of_N (Z.to_N z) with
  | Some b => b
  | None => x00
  end.

Definition Z_of_byte (b : byte) : Z := Z.of_N (Byte.to_N b).

(** Toy wire format: implant ID, tunnel ID, port, then the host bytes.
    Decoding keeps whatever host bytes it finds. *)
Definition decode (req : bytes) : PortFwdReq :=
  match req with
  | s :: t :: p :: h =>
      {| Host := string_of_list_byte h; Port := Z_of_byte p;
         SliverID := Z_of_byte s; TunnelID := Z_of_byte t |}
  | _ => {| Host := ""; Port := 0; SliverID := 0; TunnelID := 0 |}
  end.

(** Encoding refuses a host that is not UTF-8 (here: one that holds the
    byte 0xff), as protobuf does for a string field. *)
Definition encode (r : PortFwdReq) : bytes * option error :=
  let h := list_byte_of_string (Host r) in
  if existsb (Byte.eqb xff) h
  then ([], Some "proto: invalid UTF-8 string")
  else (byte_of_Z (SliverID r) :: byte_of_Z (TunnelID r)
          :: byte_of_Z (Port r) :: h, None).

(** Implant 1 answers every request; any other implant times out. *)
Definition request (s : Sliver.t) (msgType timeout : Z) (data : bytes)
    (n : nat) : (bytes * option error) * nat :=
  if Z.eqb (Sliver.ID s) 1
  then ((x6f :: x6b :: data, None), S n)
  else (([], Some "timeout"), S n).

Definition env : Env :=
  {| ImplantState := nat;
     proto_Unmarshal := decode;
     proto_Marshal := encode;
     Sliver_Request := request;
     MsgPortfwdReq := 27;
     defaultTimeout := 30 * time_Second |}.

Definition implant1 : Sliver.t := {| Sliver.ID := 1; Sliver.Name := "alpha" |}.
Definition tunnel7 : Tunnel.t := {| Tunnel.ID := 7; Tunnel.Owner := 1 |}.

(** One implant and one tunnel are registered; nothing has happened yet. *)
Definition world : World env :=
  {| hive := {[ 1 := implant1 ]};
     tunnels := {[ 7 := tunnel7 ]};
     implants := (0%nat : ImplantState env);
     forwarded := [];
     replied := [];
     info := [] |}.

(** implant 1, tunnel 7, port 80, host "db" *)
Definition goodReq : bytes := [x01; x07; x50; x64; x62].
(** implant 9 is not registered *)
Definition unknownImplantReq : bytes := [x09; x07; x50; x64; x62].
(** tunnel 9 is not registered *)
Definition unknownTunnelReq : bytes := [x01; x09; x50; x64; x62].
(** implant 1, tunnel 7, port 80, host is the single byte 0xff *)
Definition badHostReq : bytes := [x01; x07; x50; xff].

End RpcDemo.

Module TransportsDemo.

Import Transports.

(** [strip p l] is [Some r] when [l = p ++ r]. *)
Fixpoint strip (p l : bytes) : option bytes :=
  match p, l with
  | [], _ => Some l
  | a :: p', b :: l' => if Byte.eqb a b then strip p' l' else None
  | _ :: _, [] => None
  end.

Definition ascii (s : string) : bytes := list_byte_of_string s.

Definition has_suffix (suffix s : string) : bool :=
  String.eqb
    (substring (String.length s - String.length suffix)
               (String.length suffix) s)
    suffix.

(** Toy authenticated cipher: the ciphertext is the key followed by the
    plaintext; encryption needs one block of entropy for its nonce. *)
Definition encrypt (key : AESKey) (plaintext : bytes) (e : list bytes)
  : (bytes * option error) * list bytes :=
  match e with
  | [] => (([], Some "crypto/rand: no entropy"), [])
  | _ :: e' => ((key ++ plaintext, None), e')
  end.

Definition decrypt (key : AESKey) (ciphertext : bytes) : bytes * option error :=
  match strip key ciphertext with
  | Some plaintext => (plaintext, None)
  | None => ([], Some "cipher: message authentication failed")
  end.

Definition randomKey (e : list bytes) : AESKey * list bytes :=
  match e with
  | [] => ([], [])
  | k :: e' => (k, e')
  end.

(** Toy key wrap: the identity, refused for a message as long as the
    modulus. *)
Definition wrap (data : bytes) (pk : RSAPublicKey) (e : list bytes)
  : (bytes * option error) * list bytes :=
  if Z.ltb (Z.of_nat (length data)) (N pk)
  then ((data, None), e)
  else (([], Some "crypto/rsa: message too long for RSA public key size"), e).

(** Toy PEM: the armour is the prefix "PEM". *)
Definition pemDecode (data : bytes) : option PEMBlock :=
  match strip (ascii "PEM") data with
  | Some der => Some {| PEMType := "CERTIFICATE"; Bytes := der |}
  | None => None
  end.

(** Toy pinning: a certificate is signed by the root when it starts
    with "ROOT". *)
Definition verify (rawCerts : list bytes) (_ : list (list Certificate))
  : option error :=
  match rawCerts with
  | [der] =>
      match strip (ascii "ROOT") der with
      | Some _ => None
      | None => Some "x509: certificate signed by unknown authority"
      end
  | _ => Some "x509: no certificate"
  end.

(** Toy DER: after "ROOT", "R" is an RSA key and "E" an ECDSA key. *)
Definition parseCertificate (der : bytes) : option Certificate :=
  match strip (ascii "ROOT") der with
  | Some [x52] => Some {| PublicKey := RSAKey {| N := 64; E := 65537 |} |}
  | Some [x45] => Some {| PublicKey := ECDSAKey 3 5 |}
  | _ => None
  end.

(** The peer: which listeners are up, what it serves at [/rsakey], and
    how it answers [/start]. *)
Record Peer := {
  tls_up : bool;
  plain_up : bool;
  rsakey_status : Z;
  rsakey_body : bytes;
  start_status : Z;
  session_id : bytes;
  (** answer [/start] on the TLS listener with a body that is not under
      the posted key *)
  tamper_tls : bool;
  (** the same on the plain listener *)
  tamper_plain : bool
}.

(** The peer's state is the session key it has learned, if any.  It
    answers [/start] with the session ID under the posted key, and any
    other path with "pong" under the learned key. *)
Definition serve (p : Peer) (_ : HTTPClient) (req : Request)
    (learned : option bytes) : (Response + error) * option bytes :=
  if (String.prefix "https://" (ReqURL req) && negb (tls_up p))%bool
  then (inr "tls: handshake failure", learned)
  else if (String.prefix "http://" (ReqURL req) && negb (plain_up p))%bool
  then (inr "dial tcp: connection refused", learned)
  else if has_suffix "/rsakey" (ReqURL req)
  then (inl {| StatusCode := rsakey_status p; Body := rsakey_body p |}, learned)
  else if has_suffix "/start" (ReqURL req)
  then
    match ReqBody req with
    | Some key =>
        (inl {| StatusCode := start_status p;
                Body := if (if String.prefix "https://" (ReqURL req)
                            then tamper_tls p else tamper_plain p)
                        then session_id p
                        else key ++ session_id p |}, Some key)
    | None => (inl {| StatusCode := 400; Body := [] |}, learned)
    end
  else
    match learned with
    | Some key => (inl {| StatusCode := 200; Body := key ++ ascii "pong" |}, learned)
    | None => (inl {| StatusCode := 403; Body := [] |}, learned)
    end.

Definition env (debug : bool) (p : Peer) : Env :=
  {| Debug := debug;
     NetState := option bytes;
     Entropy := list bytes;
     Client_Do := serve p;
     RandomAESKey := randomKey;
     RSAEncrypt := wrap;
     GCMEncrypt := encrypt;
     GCMDecrypt := decrypt;
     pem_Decode := pemDecode;
     rootOnlyVerifyCertificate := verify;
     x509_ParseCertificate := parseCertificate;
     fingerprintSHA256 := fun _ => "aa:bb";
     proto_Marshal_HTTPSessionInit := fun key => key;
     url_Parse := fun s => Some {| Scheme := ""; Host := s; Path := "" |};
     path_Join := String.append;
     URL_String := fun u => Host u +:+ Path u;
     URL_String_parses := fun _ _ _ _ => ltac:(discriminate) |}.

(** A well-behaved peer with both listeners up. *)
Definition goodPeer : Peer :=
  {| tls_up := true; plain_up := true;
     rsakey_status := 200; rsakey_body := ascii "PEMROOTR";
     start_status := 200; session_id := ascii "abc123";
     tamper_tls := false; tamper_plain := false |}.

Definition peerWith (tls plain : bool) (status : Z) (cert : bytes)
    (start : Z) (sid : bytes) (tampered : bool) : Peer :=
  {| tls_up := tls; plain_up := plain;
     rsakey_status := status; rsakey_body := cert;
     start_status := start; session_id := sid;
     tamper_tls := tampered; tamper_plain := tampered |}.

(** No listener answers. *)
Definition downPeer : Peer :=
  peerWith false false 200 (ascii "PEMROOTR") 200 (ascii "abc123") false.
(** Only the plain listener answers, and [/start] is answered with a
    body that does not authenticate. *)
Definition tamperingPeer : Peer :=
  peerWith false true 200 (ascii "PEMROOTR") 200 (ascii "abc123") true.
(** Both listeners answer; [/start] on the TLS listener is answered with
    a body that does not authenticate. *)
Definition tlsTamperingPeer : Peer :=
  {| tls_up := true; plain_up := true;
     rsakey_status := 200; rsakey_body := ascii "PEMROOTR";
     start_status := 200; session_id := ascii "abc123";
     tamper_tls := true; tamper_plain := false |}.
(** [/rsakey] is answered 404. *)
Definition notFoundPeer : Peer :=
  peerWith true true 404 (ascii "PEMROOTR") 200 (ascii "abc123") false.
(** [/rsakey] is answered with something that is not PEM. *)
Definition garbagePeer : Peer :=
  peerWith true true 200 (ascii "<html>") 200 (ascii "abc123") false.
(** [/rsakey] is answered with a certificate the root did not sign. *)
Definition untrustedPeer : Peer :=
  peerWith true true 200 (ascii "PEMEVILR") 200 (ascii "abc123") false.
(** The pinned certificate carries an ECDSA key. *)
Definition ecdsaPeer : Peer :=
  peerWith true true 200 (ascii "PEMROOTE") 200 (ascii "abc123") false.
(** The pinned certificate verifies and then does not parse. *)
Definition unparsablePeer : Peer :=
  peerWith true true 200 (ascii "PEMROOT?") 200 (ascii "abc123") false.
(** [/start] is answered 500, with a body under the posted key. *)
Definition status500Peer : Peer :=
  peerWith true true 200 (ascii "PEMROOTR") 500 (ascii "abc123") false.
(** [/start] is answered with the empty session ID. *)
Definition emptyIDPeer : Peer :=
  peerWith true true 200 (ascii "PEMROOTR") 200 [] false.

Definition K1 : AESKey := ascii "K1".
Definition K2 : AESKey := ascii "K2".

Definition worldOf (debug : bool) (p : Peer) (learned : option bytes)
    (e : list bytes) (cs : list Request) (ls : list LogLine)
  : World (env debug p) :=
  {| net := (learned : NetState (env debug p));
     entropy := (e : Entropy (env debug p));
     calls := cs;
     logged := ls |}.

(** Nothing has happened yet; the random source holds [e]. *)
Definition world (debug : bool) (p : Peer) (e : list bytes) : World (env debug p) :=
  worldOf debug p None e [] [].

Definition address : string := "c2.example".

(** A client of the plain listener with session key [K1] and session ID
    "abc123". *)
Definition established : SliverHTTPClient :=
  {| Origin := "http://c2.example";
     Client := {| Timeout := defaultReqTimeout; Transport := None |};
     SessionKey := Some K1;
     SessionID := "abc123" |}.

End TransportsDemo.

(** Further concrete inputs: an origin that does not parse, and a key
    too long to wrap. *)

Module TransportsEdge.

Import Transports TransportsDemo.

Fixpoint has_blank (s : string) : bool :=
  match s with
  | EmptyString => false
  | String c s' => (Ascii.eqb c " "%char || has_blank s')%bool
  end.

(** Percent-encoding of blanks, as [URL.String] does for a path. *)
Fixpoint escape (s : string) : string :=
  match s with
  | EmptyString => EmptyString
  | String c s' =>
      if Ascii.eqb c " "%char
      then String "%"%char (String "2"%char (String "0"%char (escape s')))
      else String c (escape s')
  end.

(** [url.Parse] refuses a blank. *)
Definition parseURL (s : string) : option URL :=
  if has_blank s
  then None
  else Some {| Scheme := ""; Host := s; Path := "" |}.

(** [URL.String] writes the path escaped. *)
Definition showURL (u : URL) : string := Host u +:+ escape (Path u).

Lemma has_blank_app (s t : string) :
  has_blank (s +:+ t) = (has_blank s || has_blank t)%bool.
Proof.
  induction s as [| c s IH]; [reflexivity |].
  simpl. rewrite IH. apply orb_assoc.
Qed.

Lemma has_blank_escape (s : string) : has_blank (escape s) = false.
Proof.
  induction s as [| c s IH]; cbn; [reflexivity |].
  destruct (Ascii.eqb c " "%char) eqn:Hc; cbn; [exact IH |].
  now rewrite Hc, IH.
Qed.

Lemma showURL_parses (origin : string) (url : URL) (urlPath : string) :
  parseURL origin = Some url ->
  parseURL
    (showURL {| Scheme := Scheme url; Host := Host url;
                Path := String.append (Path url) urlPath |}) <> None.
Proof.
  unfold parseURL, showURL. destruct (has_blank origin) eqn:Ho; [discriminate |].
  intros H. inversion H; subst; clear H. cbn [Host Path Scheme].
  now rewrite has_blank_app, Ho, has_blank_escape.
Qed.

(** The environment of [TransportsDemo.env] with that [url.Parse]. *)
Definition strictEnv (debug : bool) (p : Peer) : Env :=
  {| Debug := debug;
     NetState := option bytes;
     Entropy := list bytes;
     Client_Do := serve p;
     RandomAESKey := randomKey;
     RSAEncrypt := wrap;
     GCMEncrypt := encrypt;
     GCMDecrypt := decrypt;
     pem_Decode := pemDecode;
     rootOnlyVerifyCertificate := verify;
     x509_ParseCertificate := parseCertificate;
     fingerprintSHA256 := fun _ => "aa:bb";
     proto_Marshal_HTTPSessionInit := fun key => key;
     url_Parse := parseURL;
     path_Join := String.append;
     URL_String := showURL;
     URL_String_parses := showURL_parses |}.

Definition strictWorld (debug : bool) (p : Peer) (learned : option bytes)
    (e : list bytes) (cs : list Request) (ls : list LogLine)
  : World (strictEnv debug p) :=
  {| net := (learned : NetState (strictEnv debug p));
     entropy := (e : Entropy (strictEnv debug p));
     calls := cs;
     logged := ls |}.

(** A client holding a session whose origin has a blank in it. *)
Definition blankOrigin : SliverHTTPClient :=
  {| Origin := "http://c2 example";
     Client := {| Timeout := defaultReqTimeout; Transport := None |};
     SessionKey := Some K1;
     SessionID := "abc123" |}.

(** Sixty-four bytes: as long as the toy modulus. *)
Definition longKey : AESKey := repeat x41 64.

(** A peer that answers every request with 503 and a body under [K1]. *)
Definition busy (_ : HTTPClient) (req : Request) (learned : option bytes)
  : (Response + error) * option bytes :=
  (inl {| StatusCode := 503; Body := K1 ++ ascii "pong" |}, learned).

(** The environment of [TransportsDemo.env] with the busy peer. *)
Definition busyEnv : Env :=
  {| Debug := true;
     NetState := option bytes;
     Entropy := list bytes;
     Client_Do := busy;
     RandomAESKey := randomKey;
     RSAEncrypt := wrap;
     GCMEncrypt := encrypt;
     GCMDecrypt := decrypt;
     pem_Decode := pemDecode;
     rootOnlyVerifyCertificate := verify;
     x509_ParseCertificate := parseCertificate;
     fingerprintSHA256 := fun _ => "aa:bb";
     proto_Marshal_HTTPSessionInit := fun key => key;
     url_Parse := parseURL;
     path_Join := String.append;
     URL_String := showURL;
     URL_String_parses := showURL_parses |}.

(** A peer whose TLS listener serves a pinned certificate with an ECDSA
    key and whose plain listener serves the RSA one; otherwise the
    well-behaved peer. *)
Definition splitServe (c : HTTPClient) (req : Request) (learned : option bytes)
  : (Response + error) * option bytes :=
  if (String.prefix "https://" (ReqURL req)
      && has_suffix "/rsakey" (ReqURL req))%bool
  then (inl {| StatusCode := 200; Body := ascii "PEMROOTE" |}, learned)
  else serve goodPeer c req learned.

Definition splitEnv : Env :=
  {| Debug := false;
     NetState := option bytes;
     Entropy := list bytes;
     Client_Do := splitServe;
     RandomAESKey := randomKey;
     RSAEncrypt := wrap;
     GCMEncrypt := encrypt;
     GCMDecrypt := decrypt;
     pem_Decode := pemDecode;
     rootOnlyVerifyCertificate := verify;
     x509_ParseCertificate := parseCertificate;
     fingerprintSHA256 := fun _ => "aa:bb";
     proto_Marshal_HTTPSessionInit := fun key => key;
     url_Parse := parseURL;
     path_Join := String.append;
     URL_String := showURL;
     URL_String_parses := showURL_parses |}.

Definition splitWorld (learned : option bytes) (e : list bytes)
    (cs : list Request) : World splitEnv :=
  {| net := (learned : NetState splitEnv);
     entropy := (e : Entropy splitEnv);
     calls := cs;
     logged := [] |}.

Definition busyWorld (e : list bytes) (cs : list Request) : World busyEnv :=
  {| net := (None : NetState busyEnv);
     entropy := (e : Entropy busyEnv);
     calls := cs;
     logged := [] |}.

End TransportsEdge.

(** ** Properties of [rpcPortfwd] *)

Module RpcFacts.

Import Rpc.

Section Handler.

Variable env : Env.

(** What the handler does when a lookup comes back nil: it reaches
    [sliver.ID] (or [tunnel.ID]) and panics there, with the world
    exactly as it found it. *)
Lemma rpcPortfwd_miss (req : bytes) (w : World env) :
  hive env w !! SliverID (proto_Unmarshal env req) = None \/
  tunnels env w !! TunnelID (proto_Unmarshal env req) = None ->
  rpcPortfwd env req w = (Panics NilDereference, w).
Proof.
  intros Hmiss.
  unfold rpcPortfwd, bind, Hive_Sliver, Tunnels_Tunnel.
  destruct (hive env w !! SliverID (proto_Unmarshal env req)) as [sl|];
    [| reflexivity].
  destruct Hmiss as [Hs | Ht]; [discriminate Hs |].
  rewrite Ht. reflexivity.
Qed.

(** The handler with both handles in hand and the encoder's verdict
    known: the marshal guard decides between replying at once and
    forwarding. *)
Lemma rpcPortfwd_resolved (req : bytes) (w : World env)
    (sliver : Sliver.t) (tunnel : Tunnel.t) :
  hive env w !! SliverID (proto_Unmarshal env req) = Some sliver ->
  tunnels env w !! TunnelID (proto_Unmarshal env req) = Some tunnel ->
  rpcPortfwd env req w =
    let pfwdReq := proto_Unmarshal env req in
    let (payload, err) :=
      proto_Marshal env
        {| Host := Host pfwdReq; Port := Port pfwdReq;
           SliverID := Sliver.ID sliver; TunnelID := Tunnel.ID tunnel |} in
    match err with
    | Some e => resp env [] (Some e) w
    | None =>
        (rpcLog_Info env (InfoRequestingForward (Sliver.ID sliver)
                            (Host pfwdReq) (Port pfwdReq)) ;;;
         let* r := Request env sliver (MsgPortfwdReq env)
                     (defaultTimeout env) payload in
         resp env (fst r) (snd r)) w
    end.
Proof.
  intros Hs Ht.
  unfold rpcPortfwd, bind at 1 2 3 4, Hive_Sliver, Tunnels_Tunnel.
  rewrite Hs, Ht. cbn [deref ret].
  destruct (proto_Marshal env _) as [payload [e|]]; [reflexivity |].
  unfold bind, rpcLog_Info, Request.
  destruct (Sliver_Request env _ _ _ _ _) as [[data err] i].
  reflexivity.
Qed.

(** Every answer the handler gives is either the encoder's error, with
    nothing forwarded, or the result of its one forward.  It has no other
    way to answer, and on a panic it has not answered at all. *)
Lemma rpcPortfwd_answers (req : bytes) (w : World env) :
  let w' := snd (rpcPortfwd env req w) in
  (fst (rpcPortfwd env req w) = Panics NilDereference /\ w' = w) \/
  (exists e,
      replied env w' = replied env w ++ [([], Some e)] /\
      forwarded env w' = forwarded env w) \/
  (exists f,
      forwarded env w' = forwarded env w ++ [f] /\
      replied env w' =
        replied env w ++
          [fst (Sliver_Request env (To f) (MsgType f) (Wait f) (Payload f)
                  (implants env w))]).
Proof.
  cbv zeta.
  destruct (hive env w !! SliverID (proto_Unmarshal env req)) as [sliver|] eqn:Hs;
    [| left; rewrite (rpcPortfwd_miss req w (or_introl Hs)); now split].
  destruct (tunnels env w !! TunnelID (proto_Unmarshal env req)) as [tunnel|] eqn:Ht;
    [| left; rewrite (rpcPortfwd_miss req w (or_intror Ht)); now split].
  right. rewrite (rpcPortfwd_resolved req w sliver tunnel Hs Ht). cbv zeta.
  destruct (proto_Marshal env _) as [payload [e|]].
  - left. exists e. now split.
  - right. unfold bind, rpcLog_Info, Request, resp. cbn [implants].
    eexists {| To := sliver; MsgType := MsgPortfwdReq env;
               Wait := defaultTimeout env; Payload := payload |}.
    cbn [To MsgType Wait Payload].
    destruct (Sliver_Request env _ _ _ _ _) as [[data err] i].
    now split.
Qed.

(** C8, as amended.  When the implant and the tunnel both resolve and
    the scoped request encodes without error, the handler forwards the
    encoded request to that implant exactly once, tagged
    [MsgPortfwdReq] and with [defaultTimeout]; it then hands the caller
    exactly the reply bytes and the error of that one forward, once,
    and leaves both registries as they were. *)
Theorem rpcPortfwd_forwards_once (req : bytes) (w : World env)
    (sliver : Sliver.t) (tunnel : Tunnel.t) (payload : bytes) :
  let pfwdReq := proto_Unmarshal env req in
  hive env w !! SliverID pfwdReq = Some sliver ->
  tunnels env w !! TunnelID pfwdReq = Some tunnel ->
  proto_Marshal env
    {| Host := Host pfwdReq; Port := Port pfwdReq;
       SliverID := Sliver.ID sliver; TunnelID := Tunnel.ID tunnel |}
    = (payload, None) ->
  let reply :=
    Sliver_Request env sliver (MsgPortfwdReq env) (defaultTimeout env)
      payload (implants env w) in
  exists w',
    rpcPortfwd env req w = (Returns tt, w') /\
    forwarded env w' =
      forwarded env w ++
        [{| To := sliver; MsgType := MsgPortfwdReq env;
            Wait := defaultTimeout env; Payload := payload |}] /\
    replied env w' = replied env w ++ [fst reply] /\
    implants env w' = snd reply /\
    hive env w' = hive env w /\
    tunnels env w' = tunnels env w.
Proof.
  intros pfwdReq Hs Ht Hm reply. subst pfwdReq reply.
  rewrite (rpcPortfwd_resolved req w sliver tunnel Hs Ht).
  cbv zeta. rewrite Hm.
  unfold bind, rpcLog_Info, Request, resp. cbn [implants].
  destruct (Sliver_Request env _ _ _ _ _) as [[data err] i].
  eexists. split; [reflexivity |]. cbn. repeat split.
Qed.

End Handler.

Import RpcDemo.

(** The amended C8 on a registered implant and tunnel: one forward to
    implant 1, and its reply handed back as it came. *)
Lemma rpcPortfwd_forwards_once_witness :
  exists w',
    rpcPortfwd RpcDemo.env goodReq world = (Returns tt, w') /\
    forwarded _ w' =
      [{| To := implant1; MsgType := 27; Wait := 30 * time_Second;
          Payload := goodReq |}] /\
    replied _ w' = [((x6f :: x6b :: goodReq), None)] /\
    implants _ w' = 1%nat /\
    hive _ w' = hive _ world /\
    tunnels _ w' = tunnels _ world.
Proof.
  exact (rpcPortfwd_forwards_once RpcDemo.env goodReq world
           implant1 tunnel7 goodReq eq_refl eq_refl eq_refl).
Defined.

(** C8 as stated fails: implant 1 and tunnel 7 both resolve, yet the
    host does not encode, and the marshal guard replies with the encoder's
    error without forwarding anything. *)
Lemma rpcPortfwd_marshal_error_not_forwarded :
  hive _ world !! SliverID (proto_Unmarshal RpcDemo.env badHostReq) = Some implant1 /\
  tunnels _ world !! TunnelID (proto_Unmarshal RpcDemo.env badHostReq) = Some tunnel7 /\
  exists w',
    rpcPortfwd RpcDemo.env badHostReq world = (Returns tt, w') /\
    forwarded _ w' = [] /\
    replied _ w' = [([], Some "proto: invalid UTF-8 string")].
Proof.
  split; [reflexivity |]. split; [reflexivity |].
  eexists. split; [reflexivity |]. split; reflexivity.
Qed.

(** C1 on the code.  A request naming implant 9 (not registered) and a
    request naming tunnel 9 (not registered) both end in a nil-pointer
    panic: the caller is never answered, so no not-found error reaches
    it.  Nothing is forwarded and the registries are untouched. *)
Theorem rpcPortfwd_unknown_id_panics :
  hive _ world !! SliverID (proto_Unmarshal RpcDemo.env unknownImplantReq) = None /\
  tunnels _ world !! TunnelID (proto_Unmarshal RpcDemo.env unknownTunnelReq) = None /\
  rpcPortfwd RpcDemo.env unknownImplantReq world = (Panics NilDereference, world) /\
  rpcPortfwd RpcDemo.env unknownTunnelReq world = (Panics NilDereference, world).
Proof.
  split; [reflexivity |]. split; [reflexivity |].
  split; apply rpcPortfwd_miss; [left | right]; reflexivity.
Qed.

End RpcFacts.

(** ** Properties of the HTTP(S) session client *)

Module TransportsFacts.

Import Transports TransportsSpec.

Section Client.

Variable env : Env.

Lemma log_Printf_withLog (l : LogLine) (w : World env) :
  log_Printf env l w = (Returns tt, withLog [l] w).
Proof. reflexivity. Qed.

Lemma withLog_withLog (l1 l2 : list LogLine) (w : World env) :
  withLog l2 (withLog l1 w) = withLog (l1 ++ l2) w.
Proof.
  unfold withLog. destruct (Debug env); [| reflexivity].
  cbn. now rewrite <- app_assoc.
Qed.

Lemma withLog_calls (l : list LogLine) (w : World env) :
  calls env (withLog l w) = calls env w /\
  entropy env (withLog l w) = entropy env w /\
  net env (withLog l w) = net env w.
Proof. unfold withLog. destruct (Debug env); repeat split. Qed.

(** A request whose URL parses is built as written. *)
Lemma http_NewRequest_built (method url : string) (body : option bytes) :
  url_Parse env url <> None ->
  http_NewRequest env method url body = Some (Build_Request method url body).
Proof.
  intros H. unfold http_NewRequest.
  now destruct (url_Parse env url).
Qed.

(** So is every request to a URL that [toURL] returned. *)
Lemma http_NewRequest_toURL (method origin urlPath : string) (url : URL)
    (body : option bytes) :
  url_Parse env origin = Some url ->
  http_NewRequest env method
    (URL_String env
       {| Scheme := Scheme url; Host := Host url;
          Path := path_Join env (Path url) urlPath |}) body =
  Some (Build_Request method
          (URL_String env
             {| Scheme := Scheme url; Host := Host url;
                Path := path_Join env (Path url) urlPath |}) body).
Proof.
  intros H. apply http_NewRequest_built.
  exact (URL_String_parses env origin url urlPath H).
Qed.

(** The key fetch was answered: its request was built and sent. *)
Lemma keyFetch_answered (s : SliverHTTPClient) (w : World env)
    (r : (Response + error) * NetState env) :
  keyFetch s w = Some r ->
  http_NewRequest env "GET" (Origin s +:+ "/rsakey") None
    = Some (rsakeyRequest s) /\
  Client_Do env (Client s) (rsakeyRequest s) (net env w) = r.
Proof.
  unfold keyFetch, http_NewRequest, rsakeyRequest.
  destruct (url_Parse env (Origin s +:+ "/rsakey")); [| discriminate].
  intros H. inversion H. split; reflexivity.
Qed.

(** With a nil key-fetch request [getPublicKey] panics in [Client.Do],
    the world untouched. *)
Lemma getPublicKey_nil_request (s : SliverHTTPClient) (w : World env) :
  url_Parse env (Origin s +:+ "/rsakey") = None ->
  getPublicKey env s w = (Panics NilDereference, w).
Proof.
  intros H. unfold getPublicKey, http_NewRequest. rewrite H. reflexivity.
Qed.

(** Otherwise [getPublicKey] makes exactly one round trip, the key
    fetch, and touches neither the random source nor the client. *)
Lemma getPublicKey_world (s : SliverHTTPClient) (w : World env) :
  url_Parse env (Origin s +:+ "/rsakey") <> None ->
  exists lines,
    snd (getPublicKey env s w) = withLog lines (afterFetch s w).
Proof.
  intros Hparse.
  unfold getPublicKey. rewrite (http_NewRequest_built _ _ _ Hparse).
  unfold bind, Do. fold (rsakeyRequest s).
  unfold afterFetch.
  destruct (Client_Do env (Client s) (rsakeyRequest s) (net env w))
    as [[resp | err] n]; cbn [snd].
  - destruct (Z.eqb (StatusCode resp) 200); cbn [negb].
    + destruct (pem_Decode env (Body resp)) as [blk |].
      * rewrite log_Printf_withLog.
        destruct (rootOnlyVerifyCertificate env _ _).
        -- rewrite log_Printf_withLog. cbn. rewrite withLog_withLog.
           eexists; reflexivity.
        -- destruct (x509_ParseCertificate env _) as [cert |];
             [destruct (PublicKey cert) |]; cbn; eexists; reflexivity.
      * rewrite log_Printf_withLog. cbn. eexists; reflexivity.
    + rewrite log_Printf_withLog. cbn. eexists; reflexivity.
  - rewrite log_Printf_withLog. cbn. eexists; reflexivity.
Qed.

(** Case analysis on whatever the code branches on next. *)
Ltac branch :=
  match goal with
  | |- context [match ?x with _ => _ end] =>
      lazymatch x with
      | context [match _ with _ => _ end] => fail
      | _ => destruct x eqn:?
      end
  end.

Ltac reduce :=
  cbn beta iota;
  cbn [SessionKey Origin Client SessionID entropy net calls logged fst snd].

Ltac run :=
  unfold SessionInit, getPublicKey, getSessionID, Get, Post, toURL,
    http_NewRequest, bind, Do, draw, log_Printf, ret, panic.

Lemma getPublicKey_failure (s : SliverHTTPClient) (w : World env)
    (lines : list LogLine) :
  KeyFetchFailure s w lines ->
  getPublicKey env s w = (Returns None, withLog lines (afterFetch s w)).
Proof.
  intros H. unfold getPublicKey, afterFetch.
  destruct H as [e n Hdo | resp n Hdo Hst | resp n Hdo Hst Hpem
                | resp n blk certErr Hdo Hst Hpem Hver];
    destruct (keyFetch_answered s w _ Hdo) as [Hreq Hans];
    rewrite Hreq; unfold bind, Do; rewrite Hans; cbn [snd].
  - reflexivity.
  - apply Z.eqb_neq in Hst. rewrite Hst. reflexivity.
  - rewrite Hst, Hpem. reflexivity.
  - rewrite Hst, Hpem. cbn [Z.eqb negb Pos.eqb]. rewrite log_Printf_withLog, Hver.
    rewrite log_Printf_withLog. unfold ret. now rewrite withLog_withLog.
Qed.

(** An attempt whose key-fetch request is nil panics at once.  Any other
    starts with the key fetch at its own origin, makes only POSTs after
    it, and hands back a client bound to the same origin and the same
    [http.Client]. *)
Lemma SessionInit_inv (s : SliverHTTPClient) (w : World env) :
  (url_Parse env (Origin s +:+ "/rsakey") = None /\
   SessionInit env s w = (Panics NilDereference, w)) \/
  (url_Parse env (Origin s +:+ "/rsakey") <> None /\
   exists tl,
     calls env (snd (SessionInit env s w)) =
       calls env w ++ rsakeyRequest s :: tl /\
     Forall (fun q => Method q = "POST") tl /\
     forall err s',
       fst (SessionInit env s w) = Returns (err, s') ->
       Origin s' = Origin s /\ Client s' = Client s).
Proof.
  destruct (url_Parse env (Origin s +:+ "/rsakey")) as [u0|] eqn:Hparse.
  - right. split; [discriminate |].
    run. rewrite Hparse. fold (rsakeyRequest s).
    repeat (reduce; branch); cbn;
      rewrite <- ?app_assoc; cbn;
      eexists; (split; [reflexivity |]);
      (split; [repeat constructor |]);
      intros err s' Heq; inversion Heq; subst; cbn; split; reflexivity.
  - left. split; [reflexivity |].
    unfold SessionInit, bind. now rewrite (getPublicKey_nil_request s w Hparse).
Qed.

(** The guard that opens [Get] and [Post]. *)
Lemma no_session_guard (s : SliverHTTPClient) :
  SessionID s = "" \/ SessionKey s = None ->
  (String.eqb (SessionID s) "" || isNil (SessionKey s))%bool = true.
Proof.
  intros [Hid | Hkey].
  - now rewrite Hid.
  - rewrite Hkey. apply orb_true_r.
Qed.

(** C5.  On a client whose session ID is empty or whose session key
    is nil, [Get] and [Post] both return the "no session" error at
    once: the world is returned untouched, so no [Client.Do] call is
    made, nothing is encrypted and nothing is logged. *)
Theorem Get_Post_no_session (s : SliverHTTPClient) (urlPath : string)
    (data : bytes) (w : World env) :
  SessionID s = "" \/ SessionKey s = None ->
  Get env s urlPath w = (Returns ([], Some (errors_New "no session")), w) /\
  Post env s urlPath data w = (Returns ([], Some (errors_New "no session")), w).
Proof.
  intros H. apply no_session_guard in H.
  unfold Get, Post. rewrite H. split; reflexivity.
Qed.

(** C7.  Each failure shape of the key-fetch stage (transport error,
    non-success status, PEM parse failure, pin-verification failure)
    ends the attempt the same way: [SessionInit] returns the error
    "error" and the client as it was, after the one key-fetch round
    trip and without drawing a key.  The shapes differ only in the
    lines a debug build logs; in a non-debug build the resulting world
    is the same for all four. *)
Theorem SessionInit_key_fetch_failure (s : SliverHTTPClient)
    (w : World env) (lines : list LogLine) :
  KeyFetchFailure s w lines ->
  SessionInit env s w =
    (Returns (Some (errors_New "error"), s),
     withLog (lines ++ [LogInvalidPublicKey]) (afterFetch s w)) /\
  (Debug env = false ->
   SessionInit env s w =
     (Returns (Some (errors_New "error"), s), afterFetch s w)).
Proof.
  intros H.
  assert (Hinit : SessionInit env s w =
            (Returns (Some (errors_New "error"), s),
             withLog (lines ++ [LogInvalidPublicKey]) (afterFetch s w))).
  { unfold SessionInit, bind. rewrite (getPublicKey_failure s w lines H).
    rewrite log_Printf_withLog. unfold ret.
    now rewrite withLog_withLog. }
  split; [exact Hinit |].
  intros Hdebug. rewrite Hinit. unfold withLog. now rewrite Hdebug.
Qed.

(** C9.  Once the fetched certificate has passed pinned verification,
    [getPublicKey] re-parses it without looking at the parse error and
    asserts its key to be RSA: it panics on the nil certificate when
    the re-parse fails, panics on the type assertion when the key is
    not RSA, and returns the key only when it is RSA.  It returns
    neither nil nor an error in the first two cases. *)
Theorem getPublicKey_verified_then_unchecked (s : SliverHTTPClient)
    (w : World env) (resp : Response) (n : NetState env) (blk : PEMBlock) :
  keyFetch s w = Some (inl resp, n) ->
  StatusCode resp = 200 ->
  pem_Decode env (Body resp) = Some blk ->
  rootOnlyVerifyCertificate env [Bytes blk] [] = None ->
  fst (getPublicKey env s w) =
    match x509_ParseCertificate env (Bytes blk) with
    | None => Panics NilDereference
    | Some cert =>
        match PublicKey cert with
        | RSAKey k => Returns (Some k)
        | _ => Panics TypeAssertion
        end
    end.
Proof.
  intros Hdo Hst Hpem Hver.
  destruct (keyFetch_answered s w _ Hdo) as [Hreq Hans].
  unfold getPublicKey. rewrite Hreq. unfold bind, Do.
  rewrite Hans, Hst, Hpem. cbn [Z.eqb Pos.eqb negb].
  rewrite log_Printf_withLog, Hver.
  destruct (x509_ParseCertificate env (Bytes blk)) as [cert |];
    [destruct (PublicKey cert) |]; reflexivity.
Qed.

(** C10.  When the key fetch, the key wrap and the handshake POST all
    succeed and the response body decrypts, without error, to the empty
    byte string, [SessionInit] returns no error and leaves the client
    with the drawn key and the empty session ID; on that client every
    [Get] and every [Post] returns the "no session" error without
    touching the world. *)
Theorem SessionInit_empty_session_id (s : SliverHTTPClient)
    (w w1 : World env) (pk : RSAPublicKey) (key : AESKey)
    (e1 e2 : Entropy env) (ct : bytes) (url : URL) (resp : Response)
    (n : NetState env) :
  getPublicKey env s w = (Returns (Some pk), w1) ->
  RandomAESKey env (entropy env w1) = (key, e1) ->
  RSAEncrypt env (proto_Marshal_HTTPSessionInit env key) pk e1
    = ((ct, None), e2) ->
  url_Parse env (Origin s) = Some url ->
  Client_Do env (Client s) (startRequest env url ct) (net env w1) = (inl resp, n) ->
  GCMDecrypt env key (Body resp) = ([], None) ->
  exists s' w',
    SessionInit env s w = (Returns (None, s'), w') /\
    SessionKey s' = Some key /\
    SessionID s' = "" /\
    forall urlPath data w'',
      Get env s' urlPath w'' =
        (Returns ([], Some (errors_New "no session")), w'') /\
      Post env s' urlPath data w'' =
        (Returns ([], Some (errors_New "no session")), w'').
Proof.
  intros Hpk Hkey Hwrap Hurl Hdo Hdec.
  unfold SessionInit, bind at 1. rewrite Hpk.
  unfold bind at 1, draw at 1. rewrite Hkey.
  unfold bind at 1, draw at 1. cbn [entropy]. rewrite Hwrap.
  unfold bind at 1, getSessionID, toURL. cbn [Origin].
  rewrite Hurl. unfold bind at 1, ret.
  rewrite (http_NewRequest_toURL "POST" _ "/start" url (Some ct) Hurl).
  unfold bind, Do. cbn [Client net].
  fold (startRequest env url ct). rewrite Hdo. cbn [SessionKey].
  rewrite Hdec.
  eexists. eexists. split; [reflexivity |].
  split; [reflexivity |]. split; [reflexivity |].
  intros urlPath data w''. unfold Get, Post. split; reflexivity.
Qed.

(** [HTTPStartSession] by the outcome of its attempts. *)
Lemma HTTPStartSession_cases (address : string) (w : World env) :
  HTTPStartSession env address w =
    match SessionInit env (httpsClient address) w with
    | (Returns (None, c), w1) => (Returns (Some c, None), w1)
    | (Returns (Some _, _), w1) =>
        match SessionInit env (httpClient address) w1 with
        | (Returns (None, c), w2) => (Returns (Some c, None), w2)
        | (Returns (Some e, _), w2) => (Returns (None, Some e), w2)
        | (Panics why, w2) => (Panics why, w2)
        end
    | (Panics why, w1) => (Panics why, w1)
    end.
Proof.
  unfold HTTPStartSession, bind.
  destruct (SessionInit env (httpsClient address) w) as [[[[e1|] c1]| why] w1];
    try reflexivity.
  destruct (SessionInit env (httpClient address) w1) as [[[[e2|] c2]| why] w2];
    reflexivity.
Qed.

(** The two key-fetch requests differ: one goes to the https origin,
    the other to the http origin. *)
Lemma rsakeyRequest_http_https (address : string) :
  rsakeyRequest (httpClient address) <> rsakeyRequest (httpsClient address).
Proof. unfold rsakeyRequest. cbn. intros H. inversion H. Qed.

Lemma not_In_POSTs (q : Request) (tl : list Request) :
  Method q = "GET" ->
  Forall (fun r => Method r = "POST") tl ->
  ~ In q tl.
Proof.
  intros Hq Hall Hin. rewrite List.Forall_forall in Hall.
  apply Hall in Hin. rewrite Hq in Hin. discriminate Hin.
Qed.

(** What one attempt adds to the calls. *)
Lemma SessionInit_made (s : SliverHTTPClient) (w : World env) :
  exists made,
    calls env (snd (SessionInit env s w)) = calls env w ++ made /\
    (made = [] \/
     exists tl, made = rsakeyRequest s :: tl /\
                Forall (fun q => Method q = "POST") tl) /\
    (made = [] -> SessionInit env s w = (Panics NilDereference, w)) /\
    (url_Parse env (Origin s +:+ "/rsakey") <> None ->
     In (rsakeyRequest s) made) /\
    forall err s',
      fst (SessionInit env s w) = Returns (err, s') ->
      Origin s' = Origin s /\ Client s' = Client s.
Proof.
  destruct (SessionInit_inv s w) as [[Hp Hpan] | [Hp (tl & Hc & Hposts & Ho)]].
  - exists []. rewrite Hpan. cbn [fst snd]. rewrite app_nil_r.
    split; [reflexivity |]. split; [now left |]. split; [reflexivity |].
    split; [intros H; now destruct H |].
    intros err s' H. discriminate H.
  - exists (rsakeyRequest s :: tl).
    split; [exact Hc |]. split; [right; eauto |].
    split; [intros H; discriminate H |].
    split; [intros _; now left | exact Ho].
Qed.

(** X13.  [HTTPStartSession] first runs the handshake on the https
    client: whatever round trips it makes begin with the key fetch at the
    https origin.  It goes on to the http origin of the same address only
    when the https attempt has returned an error, and then the http key
    fetch is made as soon as its request can be built.  If the https
    attempt returns no error, its client is the result.  If it returns an
    error, the result is that of the http attempt: its client on success,
    and on failure the http attempt's error, whatever the https attempt's
    error was.  A panic of either attempt ends the call with that panic;
    after a panic of the https attempt nothing is tried on the http
    origin. *)
Theorem HTTPStartSession_fallback (address : string) (w : World env) :
  let first := SessionInit env (httpsClient address) w in
  let second := SessionInit env (httpClient address) (snd first) in
  let result := HTTPStartSession env address w in
  (forall made,
      calls env (snd result) = calls env w ++ made ->
      made = [] \/
      exists rest, made = rsakeyRequest (httpsClient address) :: rest) /\
  (forall made,
      calls env (snd result) = calls env w ++ made ->
      (In (rsakeyRequest (httpClient address)) made ->
       exists e1 c1, fst first = Returns (Some e1, c1)) /\
      ((exists e1 c1, fst first = Returns (Some e1, c1)) ->
       url_Parse env (Origin (httpClient address) +:+ "/rsakey") <> None ->
       In (rsakeyRequest (httpClient address)) made)) /\
  (forall c,
      fst first = Returns (None, c) ->
      result = (Returns (Some c, None), snd first) /\
      Origin c = "https://" +:+ address) /\
  (forall e1 c1,
      fst first = Returns (Some e1, c1) ->
      (forall c2,
          fst second = Returns (None, c2) ->
          result = (Returns (Some c2, None), snd second) /\
          Origin c2 = "http://" +:+ address) /\
      (forall e2 c2,
          fst second = Returns (Some e2, c2) ->
          result = (Returns (None, Some e2), snd second)) /\
      (forall why,
          fst second = Panics why ->
          result = (Panics why, snd second))) /\
  (forall why,
      fst first = Panics why ->
      result = (Panics why, snd first)).
Proof.
  cbv zeta. rewrite HTTPStartSession_cases.
  destruct (SessionInit_made (httpsClient address) w)
    as (made1 & Hc1 & Hshape1 & Hnil1 & _ & Ho1).
  destruct (SessionInit env (httpsClient address) w) as [o1 w1].
  cbn [fst snd] in *.
  destruct (SessionInit_made (httpClient address) w1)
    as (made2 & Hc2 & _ & _ & Hin2 & Ho2).
  destruct (SessionInit env (httpClient address) w1) as [o2 w2].
  cbn [fst snd] in *.
  assert (Hno1 : ~ In (rsakeyRequest (httpClient address)) made1).
  { destruct Hshape1 as [-> | (tl1 & -> & Hposts)]; [intros H; exact H |].
    intros [Heq | Hin].
    - now apply (rsakeyRequest_http_https address).
    - exact (not_In_POSTs (rsakeyRequest (httpClient address)) tl1
               eq_refl Hposts Hin). }
  assert (Hfirst : forall made, calls env w1 = calls env w ++ made ->
            made = made1)
    by (intros made H; rewrite Hc1 in H; now apply app_inv_head in H).
  destruct o1 as [[[e1|] c1]| why1].
  - (* the https attempt returned an error *)
    assert (Hcons : exists tl1, made1 = rsakeyRequest (httpsClient address) :: tl1).
    { destruct Hshape1 as [Hnil | (tl1 & -> & _)]; [| eauto].
      specialize (Hnil1 Hnil). discriminate Hnil1. }
    destruct Hcons as [tl1 ->].
    assert (Hsnd : forall made,
              calls env
                (snd (match o2 with
                      | Returns (Some e, _) => (Returns (None, Some e), w2)
                      | Returns (None, c) => (Returns (Some c, None), w2)
                      | Panics why => (Panics why, w2)
                      end)) = calls env w ++ made ->
              made = (rsakeyRequest (httpsClient address) :: tl1) ++ made2).
    { intros made H.
      assert (H' : calls env w2 = calls env w ++ made)
        by (destruct o2 as [[[e2|] c2]| why2]; exact H).
      rewrite Hc2, Hc1, <- app_assoc in H'. now apply app_inv_head in H'. }
    split; [intros made H; rewrite (Hsnd made H); right; eauto |].
    split.
    { intros made H. rewrite (Hsnd made H). split; [intros _; eauto |].
      intros _ Hparse. apply in_or_app. right. now apply Hin2. }
    split; [intros c Hc; discriminate Hc |].
    split; [| intros why H; discriminate H].
    intros e1' c1' _. split; [| split].
    + intros c2 H2. subst o2. split; [reflexivity |].
      now destruct (Ho2 None c2 eq_refl).
    + intros e2 c2 H2. subst o2. reflexivity.
    + intros why H2. subst o2. reflexivity.
  - (* the https attempt succeeded *)
    cbn [snd].
    split.
    { intros made H. rewrite (Hfirst made H).
      destruct Hshape1 as [-> | (tl1 & -> & _)]; [now left | right; eauto]. }
    split.
    { intros made H. rewrite (Hfirst made H).
      split; [intros Hin; now destruct Hno1 |].
      intros (e & c & Hec). discriminate Hec. }
    split.
    + intros c Hc. inversion Hc; subst. split; [reflexivity |].
      now destruct (Ho1 None c eq_refl).
    + split; [intros e c Hc; discriminate Hc | intros why H; discriminate H].
  - (* the https attempt panicked *)
    cbn [snd].
    split.
    { intros made H. rewrite (Hfirst made H).
      destruct Hshape1 as [-> | (tl1 & -> & _)]; [now left | right; eauto]. }
    split.
    { intros made H. rewrite (Hfirst made H).
      split; [intros Hin; now destruct Hno1 |].
      intros (e & c & Hec). discriminate Hec. }
    split; [intros c Hc; discriminate Hc |].
    split; [intros e c Hc; discriminate Hc |].
    intros why H. inversion H. reflexivity.
Qed.

Lemma bind_returns (W A B : Type) (m : Exec W A) (k : A -> Exec W B)
    (w w' : W) (a : A) :
  m w = (Returns a, w') -> bind m k w = k a w'.
Proof. intros H. unfold bind. now rewrite H. Qed.

Lemma getPublicKey_entropy (s : SliverHTTPClient) (w : World env) :
  entropy env (snd (getPublicKey env s w)) = entropy env w.
Proof.
  destruct (url_Parse env (Origin s +:+ "/rsakey")) as [u|] eqn:Hparse.
  - destruct (getPublicKey_world s w) as [lines ->];
      [rewrite Hparse; discriminate |].
    now destruct (withLog_calls lines (afterFetch s w)) as (_ & -> & _).
  - now rewrite (getPublicKey_nil_request s w Hparse).
Qed.

(** Past the key fetch, an attempt installs the key it draws from the
    random source, and does so whatever key the client held. *)
Lemma SessionInit_key_drawn (s : SliverHTTPClient) (w w1 : World env)
    (pk : RSAPublicKey) :
  getPublicKey env s w = (Returns (Some pk), w1) ->
  (forall err s',
      fst (SessionInit env s w) = Returns (err, s') ->
      SessionKey s' = Some (fst (RandomAESKey env (entropy env w)))) /\
  (forall k, SessionInit env (withKey k s) w = SessionInit env s w).
Proof.
  intros Hpk.
  assert (Hent : entropy env w1 = entropy env w).
  { rewrite <- (getPublicKey_entropy s w). now rewrite Hpk. }
  split.
  - unfold SessionInit, bind at 1. rewrite Hpk.
    unfold bind at 1, draw at 1. rewrite Hent.
    destruct (RandomAESKey env (entropy env w)) as [key e1]. cbn [fst].
    run. repeat (reduce; branch); cbn;
      intros err s' Heq; inversion Heq; subst; reflexivity.
  - intros k. unfold SessionInit.
    change (getPublicKey env (withKey k s)) with (getPublicKey env s).
    rewrite !(bind_returns _ _ _ _ _ _ _ _ Hpk).
    reflexivity.
Qed.

(** An attempt that fails at the key fetch draws nothing. *)
Lemma SessionInit_no_key (s : SliverHTTPClient) (w w1 : World env) :
  getPublicKey env s w = (Returns None, w1) ->
  fst (SessionInit env s w) = Returns (Some (errors_New "error"), s) /\
  entropy env (snd (SessionInit env s w)) = entropy env w.
Proof.
  intros Hpk.
  assert (Hent : entropy env w1 = entropy env w).
  { rewrite <- (getPublicKey_entropy s w). now rewrite Hpk. }
  unfold SessionInit, bind. rewrite Hpk, log_Printf_withLog. cbn.
  split; [reflexivity |].
  now destruct (withLog_calls [LogInvalidPublicKey] w1) as (_ & -> & _).
Qed.

Lemma SessionInit_panics (s : SliverHTTPClient) (w w1 : World env)
    (why : PanicReason) :
  getPublicKey env s w = (Panics why, w1) ->
  SessionInit env s w = (Panics why, w1).
Proof. intros Hpk. unfold SessionInit, bind. now rewrite Hpk. Qed.

(** Past the key fetch, the random source is left as the draw and the
    key wrap leave it. *)
Lemma SessionInit_entropy_drawn (s : SliverHTTPClient) (w w1 : World env)
    (pk : RSAPublicKey) :
  getPublicKey env s w = (Returns (Some pk), w1) ->
  let drawn := RandomAESKey env (entropy env w) in
  entropy env (snd (SessionInit env s w)) =
    snd (RSAEncrypt env (proto_Marshal_HTTPSessionInit env (fst drawn)) pk
           (snd drawn)).
Proof.
  intros Hpk. cbv zeta.
  assert (Hent : entropy env w1 = entropy env w).
  { rewrite <- (getPublicKey_entropy s w). now rewrite Hpk. }
  unfold SessionInit, bind at 1. rewrite Hpk.
  unfold bind at 1, draw at 1. rewrite Hent.
  destruct (RandomAESKey env (entropy env w)) as [key e1]. cbn [fst snd].
  unfold bind at 1, draw at 1. cbn [entropy].
  destruct (RSAEncrypt env (proto_Marshal_HTTPSessionInit env key) pk e1)
    as [[ct err] e2]. cbn [snd].
  run. repeat (reduce; branch); reflexivity.
Qed.

(** The fallback attempt does not look at a key its client holds: on
    any such key, what comes back from [HTTPStartSession] is the same. *)
Lemma fallback_ignores_held_key (s : SliverHTTPClient) (w : World env)
    (k : option AESKey) :
  fallbackResult (SessionInit env (withKey k s) w) =
  fallbackResult (SessionInit env s w).
Proof.
  destruct (getPublicKey env s w) as [[[pk|]| why] w1] eqn:Hpk.
  - destruct (SessionInit_key_drawn _ _ _ _ Hpk) as [_ Hsame].
    now rewrite Hsame.
  - unfold SessionInit.
    change (getPublicKey env (withKey k s)) with (getPublicKey env s).
    rewrite !(bind_returns _ _ _ _ _ _ _ _ Hpk).
    unfold bind. rewrite !log_Printf_withLog. reflexivity.
  - rewrite (SessionInit_panics _ _ _ _ Hpk).
    unfold SessionInit, bind.
    change (getPublicKey env (withKey k s)) with (getPublicKey env s).
    now rewrite Hpk.
Qed.


(** [getSessionID] on a response: the status code is never read. *)
Lemma getSessionID_any_status (s : SliverHTTPClient) (ct : bytes)
    (w : World env) (url : URL) (resp : Response) (n : NetState env)
    (key : AESKey) (sid : bytes) :
  url_Parse env (Origin s) = Some url ->
  Client_Do env (Client s) (startRequest env url ct) (net env w) = (inl resp, n) ->
  SessionKey s = Some key ->
  GCMDecrypt env key (Body resp) = (sid, None) ->
  getSessionID env s ct w =
    (Returns (None,
              {| Origin := Origin s; Client := Client s;
                 SessionKey := SessionKey s;
                 SessionID := string_of_list_byte sid |}),
     {| net := n; entropy := entropy env w;
        calls := calls env w ++ [startRequest env url ct];
        logged := logged env w |}).
Proof.
  intros Hurl Hdo Hkey Hdec.
  unfold getSessionID, toURL, bind at 1. rewrite Hurl. unfold ret.
  rewrite (http_NewRequest_toURL "POST" _ "/start" url (Some ct) Hurl).
  unfold bind, Do. fold (startRequest env url ct).
  rewrite Hdo, Hkey, Hdec. reflexivity.
Qed.

(** [Post] on a client with a session: the request goes out with
    whatever bytes the encryption returned, error or not. *)
Lemma Post_any_encrypt_result (s : SliverHTTPClient) (urlPath : string)
    (data : bytes) (w : World env) (key : AESKey) (reqData : bytes)
    (err : option error) (ent : Entropy env) (url : URL) :
  SessionID s <> "" ->
  SessionKey s = Some key ->
  GCMEncrypt env key data (entropy env w) = ((reqData, err), ent) ->
  url_Parse env (Origin s) = Some url ->
  calls env (snd (Post env s urlPath data w)) =
    calls env w ++
      [Build_Request "POST"
         (URL_String env
            {| Scheme := Scheme url; Host := Host url;
               Path := path_Join env (Path url) urlPath |})
         (Some reqData)].
Proof.
  intros Hid Hkey Henc Hurl.
  apply String.eqb_neq in Hid.
  unfold Post. rewrite Hid, Hkey. cbn [isNil orb].
  unfold bind at 1, draw. rewrite Henc.
  unfold toURL, bind at 1. rewrite Hurl. unfold ret.
  rewrite (http_NewRequest_toURL "POST" _ urlPath url (Some reqData) Hurl).
  unfold bind, Do. cbn [net].
  destruct (Client_Do env _ _ _) as [[resp | e] n].
  - destruct (negb _); reflexivity.
  - rewrite log_Printf_withLog. cbn [snd].
    unfold withLog. now destruct (Debug env).
Qed.

End Client.

Import TransportsDemo.

(** C5 on two clients: one that has never run a handshake, and one that
    holds a session ID and no key. *)
Lemma Get_Post_no_session_witness :
  let e := env false goodPeer in
  let w := world false goodPeer [K1; K2] in
  (Get e (httpClient address) "/poll" w =
     (Returns ([], Some "no session"), w) /\
   Post e (httpClient address) "/poll" (ascii "id") w =
     (Returns ([], Some "no session"), w)) /\
  (Get e (withKey None established) "/poll" w =
     (Returns ([], Some "no session"), w) /\
   Post e (withKey None established) "/poll" (ascii "id") w =
     (Returns ([], Some "no session"), w)).
Proof.
  split.
  - exact (Get_Post_no_session (env false goodPeer) (httpClient address)
             "/poll" (ascii "id") (world false goodPeer [K1; K2])
             (or_introl eq_refl)).
  - exact (Get_Post_no_session (env false goodPeer) (withKey None established)
             "/poll" (ascii "id") (world false goodPeer [K1; K2])
             (or_intror eq_refl)).
Defined.

(** C7 on the four failure shapes, in a debug build: the same error, the
    same client, the same single round trip; only the logged lines tell
    the shapes apart. *)
Lemma SessionInit_key_fetch_failure_witness :
  let c := httpsClient address in
  let failed (p : Peer) (lines : list LogLine) :=
    SessionInit (env true p) c (world true p [K1; K2]) =
      (Returns (Some "error", c),
       worldOf true p None [K1; K2] [rsakeyRequest c] lines) in
  failed downPeer [LogFetchFailed; LogInvalidPublicKey] /\
  failed notFoundPeer [LogFetchFailed; LogInvalidPublicKey] /\
  failed garbagePeer [LogPEMParseFailed; LogInvalidPublicKey] /\
  failed untrustedPeer
    [LogFingerprint "aa:bb"; LogInvalidCertificate None; LogInvalidPublicKey].
Proof.
  cbv zeta. split; [| split; [| split]].
  - assert (H : @KeyFetchFailure (env true downPeer) (httpsClient address)
                  (world true downPeer [K1; K2]) [LogFetchFailed])
      by (eapply TransportError; reflexivity).
    exact (proj1 (SessionInit_key_fetch_failure _ _ _ _ H)).
  - assert (H : @KeyFetchFailure (env true notFoundPeer) (httpsClient address)
                  (world true notFoundPeer [K1; K2]) [LogFetchFailed])
      by (eapply NonSuccessStatus; [reflexivity | discriminate]).
    exact (proj1 (SessionInit_key_fetch_failure _ _ _ _ H)).
  - assert (H : @KeyFetchFailure (env true garbagePeer) (httpsClient address)
                  (world true garbagePeer [K1; K2]) [LogPEMParseFailed])
      by (eapply PEMParseFailure; reflexivity).
    exact (proj1 (SessionInit_key_fetch_failure _ _ _ _ H)).
  - assert (H : @KeyFetchFailure (env true untrustedPeer) (httpsClient address)
                  (world true untrustedPeer [K1; K2])
                  [LogFingerprint "aa:bb"; LogInvalidCertificate None])
      by (eapply (VerificationFailure (env true untrustedPeer)); reflexivity).
    exact (proj1 (SessionInit_key_fetch_failure _ _ _ _ H)).
Defined.

(** C9 on three pinned certificates: one that does not re-parse, one
    with an ECDSA key, one with an RSA key. *)
Lemma getPublicKey_verified_then_unchecked_witness :
  let c := httpsClient address in
  fst (getPublicKey (env false unparsablePeer) c
         (world false unparsablePeer [K1; K2])) = Panics NilDereference /\
  fst (getPublicKey (env false ecdsaPeer) c
         (world false ecdsaPeer [K1; K2])) = Panics TypeAssertion /\
  fst (getPublicKey (env false goodPeer) c
         (world false goodPeer [K1; K2])) =
    Returns (Some {| N := 64; E := 65537 |}).
Proof.
  cbv zeta. split; [| split].
  - exact (getPublicKey_verified_then_unchecked (env false unparsablePeer)
             (httpsClient address) (world false unparsablePeer [K1; K2])
             {| StatusCode := 200; Body := ascii "PEMROOT?" |} None
             {| PEMType := "CERTIFICATE"; Bytes := ascii "ROOT?" |}
             eq_refl eq_refl eq_refl eq_refl).
  - exact (getPublicKey_verified_then_unchecked (env false ecdsaPeer)
             (httpsClient address) (world false ecdsaPeer [K1; K2])
             {| StatusCode := 200; Body := ascii "PEMROOTE" |} None
             {| PEMType := "CERTIFICATE"; Bytes := ascii "ROOTE" |}
             eq_refl eq_refl eq_refl eq_refl).
  - exact (getPublicKey_verified_then_unchecked (env false goodPeer)
             (httpsClient address) (world false goodPeer [K1; K2])
             {| StatusCode := 200; Body := ascii "PEMROOTR" |} None
             {| PEMType := "CERTIFICATE"; Bytes := ascii "ROOTR" |}
             eq_refl eq_refl eq_refl eq_refl).
Defined.

(** C10 on a peer that issues the empty session ID: the handshake
    succeeds, and the client it leaves refuses every [Get] and [Post]. *)
Lemma SessionInit_empty_session_id_witness :
  exists s' w',
    SessionInit (env false emptyIDPeer) (httpsClient address)
      (world false emptyIDPeer [K1; K2]) = (Returns (None, s'), w') /\
    SessionKey s' = Some K1 /\
    SessionID s' = "" /\
    forall urlPath data w'',
      Get (env false emptyIDPeer) s' urlPath w'' =
        (Returns ([], Some "no session"), w'') /\
      Post (env false emptyIDPeer) s' urlPath data w'' =
        (Returns ([], Some "no session"), w'').
Proof.
  exact (SessionInit_empty_session_id (env false emptyIDPeer)
           (httpsClient address) (world false emptyIDPeer [K1; K2])
           (worldOf false emptyIDPeer None [K1; K2]
              [rsakeyRequest (httpsClient address)] [])
           {| N := 64; E := 65537 |} K1 [K2] [K2] K1
           {| Scheme := ""; Host := "https://c2.example"; Path := "" |}
           {| StatusCode := 200; Body := K1 |} (Some K1)
           eq_refl eq_refl eq_refl eq_refl eq_refl eq_refl).
Defined.

(** X13 on a peer whose TLS listener is down and whose plain listener
    tampers with the handshake reply: the https attempt fails with
    "error", the http attempt with an authentication failure, and the
    latter is what comes back. *)
Lemma HTTPStartSession_fallback_witness :
  let e := env false tamperingPeer in
  let w := world false tamperingPeer [K1; K2] in
  fst (SessionInit e (httpsClient address) w) =
    Returns (Some "error", httpsClient address) /\
  HTTPStartSession e address w =
    (Returns (None, Some "cipher: message authentication failed"),
     worldOf false tamperingPeer (Some K1) [K2]
       [rsakeyRequest (httpsClient address);
        rsakeyRequest (httpClient address);
        Build_Request "POST" "http://c2.example/start" (Some K1)] []).
Proof.
  cbv zeta. split; [reflexivity |].
  destruct (HTTPStartSession_fallback (env false tamperingPeer) address
              (world false tamperingPeer [K1; K2]))
    as (_ & _ & _ & Hfailed & _).
  destruct (Hfailed "error" (httpsClient address) eq_refl) as (_ & Hboth & _).
  exact (Hboth "cipher: message authentication failed"
           (withKey (Some K1) (httpClient address)) eq_refl).
Defined.



Import TransportsEdge.

(** C4 on the code.  The TLS listener serves a pinned certificate with
    an ECDSA key, the plain listener the RSA one.  The https attempt
    fails by panicking on the type assertion in [getPublicKey]; the
    handshake on the http client would succeed from the same state; yet
    [HTTPStartSession] never tries it: the call ends in the panic after
    the one https round trip. *)
Theorem HTTPStartSession_panic_no_fallback :
  let w := splitWorld None [K1; K2] [] in
  SessionInit splitEnv (httpsClient address) w =
    (Panics TypeAssertion,
     splitWorld None [K1; K2] [rsakeyRequest (httpsClient address)]) /\
  fst (SessionInit splitEnv (httpClient address)
         (splitWorld None [K1; K2] [rsakeyRequest (httpsClient address)])) =
    Returns (None, established) /\
  HTTPStartSession splitEnv address w =
    (Panics TypeAssertion,
     splitWorld None [K1; K2] [rsakeyRequest (httpsClient address)]).
Proof. cbv zeta. split; [reflexivity |]. split; reflexivity. Qed.

(** C2 on the code.  The client holds a session; the random source is
    empty, so the encryption of the payload fails.  [Post] goes on
    regardless: it sends a POST whose body is the nil ciphertext and
    returns the peer's decrypted answer with no error. *)
Theorem Post_encrypt_error_still_sends :
  let e := env false goodPeer in
  let w := worldOf false goodPeer (Some K1) [] [] [] in
  GCMEncrypt e K1 (ascii "secret") (entropy e w) =
    (([], Some "crypto/rand: no entropy"), []) /\
  Post e established "/poll" (ascii "secret") w =
    (Returns (ascii "pong", None),
     worldOf false goodPeer (Some K1) []
       [Build_Request "POST" "http://c2.example/poll" (Some [])] []).
Proof. cbv zeta. split; reflexivity. Qed.

(** C3 on the code.  The peer answers the handshake POST with status
    500 and a body under the posted key.  [getSessionID] never looks at
    the status: it decrypts the body, stores the session ID and returns
    no error, and so does [SessionInit]. *)
Theorem getSessionID_accepts_status_500 :
  let e := env false status500Peer in
  let c := withKey (Some K1) (httpsClient address) in
  let post := Build_Request "POST" "https://c2.example/start" (Some K1) in
  fst (Client_Do e (Client c) post None) =
    inl {| StatusCode := 500; Body := K1 ++ ascii "abc123" |} /\
  getSessionID e c K1 (world false status500Peer [K2]) =
    (Returns (None,
              {| Origin := "https://c2.example"; Client := Client c;
                 SessionKey := Some K1; SessionID := "abc123" |}),
     worldOf false status500Peer (Some K1) [K2] [post] []) /\
  fst (SessionInit e (httpsClient address) (world false status500Peer [K1; K2])) =
    Returns (None,
             {| Origin := "https://c2.example"; Client := Client c;
                SessionKey := Some K1; SessionID := "abc123" |}).
Proof. cbv zeta. repeat split; reflexivity. Qed.

End TransportsFacts.

(** ** Further properties of [rpcPortfwd] *)

Module RpcMore.

Import Rpc RpcFacts.

Section Handler.

Variable env : Env.

(** X2.  When the implant and the tunnel both resolve, the handler
    answers its caller exactly once, whatever the encoder and the implant
    do.  It forwards once when the scoped request encodes and not at all
    when it does not, and it writes its one info line exactly when it
    forwards. *)
Theorem rpcPortfwd_answers_once (req : bytes) (w : World env)
    (sliver : Sliver.t) (tunnel : Tunnel.t) :
  let pfwdReq := proto_Unmarshal env req in
  hive env w !! SliverID pfwdReq = Some sliver ->
  tunnels env w !! TunnelID pfwdReq = Some tunnel ->
  let w' := snd (rpcPortfwd env req w) in
  let encoded :=
    proto_Marshal env
      {| Host := Host pfwdReq; Port := Port pfwdReq;
         SliverID := Sliver.ID sliver; TunnelID := Tunnel.ID tunnel |} in
  fst (rpcPortfwd env req w) = Returns tt /\
  length (replied env w') = S (length (replied env w)) /\
  match snd encoded with
  | Some e =>
      forwarded env w' = forwarded env w /\
      info env w' = info env w /\
      replied env w' = replied env w ++ [([], Some e)]
  | None =>
      length (forwarded env w') = S (length (forwarded env w)) /\
      info env w' =
        info env w ++
          [InfoRequestingForward (Sliver.ID sliver) (Host pfwdReq) (Port pfwdReq)]
  end.
Proof.
  intros pfwdReq Hs Ht. subst pfwdReq. cbv zeta.
  rewrite (rpcPortfwd_resolved env req w sliver tunnel Hs Ht). cbv zeta.
  destruct (proto_Marshal env _) as [payload [e|]]; cbn [snd fst].
  - unfold resp. cbn. rewrite length_app. cbn.
    split; [reflexivity |]. split; [lia |]. now repeat split.
  - unfold bind, rpcLog_Info, Request, resp. cbn [implants].
    destruct (Sliver_Request env _ _ _ _ _) as [[data err] i]. cbn.
    rewrite !length_app. cbn.
    split; [reflexivity |]. split; [lia |]. split; [lia | reflexivity].
Qed.


End Handler.

Import RpcDemo.

(** X2 on a registered implant and tunnel, once with a host that encodes
    and once with one that does not. *)
Lemma rpcPortfwd_answers_once_witness :
  (fst (rpcPortfwd RpcDemo.env goodReq world) = Returns tt /\
   length (replied _ (snd (rpcPortfwd RpcDemo.env goodReq world))) = 1%nat /\
   length (forwarded _ (snd (rpcPortfwd RpcDemo.env goodReq world))) = 1%nat /\
   info _ (snd (rpcPortfwd RpcDemo.env goodReq world)) =
     [InfoRequestingForward 1 "db" 80]) /\
  (fst (rpcPortfwd RpcDemo.env badHostReq world) = Returns tt /\
   length (replied _ (snd (rpcPortfwd RpcDemo.env badHostReq world))) = 1%nat /\
   forwarded _ (snd (rpcPortfwd RpcDemo.env badHostReq world)) = [] /\
   info _ (snd (rpcPortfwd RpcDemo.env badHostReq world)) = [] /\
   replied _ (snd (rpcPortfwd RpcDemo.env badHostReq world)) =
     [([], Some "proto: invalid UTF-8 string")]).
Proof.
  split.
  - exact (rpcPortfwd_answers_once RpcDemo.env goodReq world implant1 tunnel7
             eq_refl eq_refl).
  - exact (rpcPortfwd_answers_once RpcDemo.env badHostReq world implant1 tunnel7
             eq_refl eq_refl).
Defined.

(** The demo registries file each handle under its own ID. *)
Lemma world_keyed :
  (forall k s, hive _ world !! k = Some s -> Sliver.ID s = k) /\
  (forall k t, tunnels _ world !! k = Some t -> Tunnel.ID t = k).
Proof.
  split; intros k x H; cbn in H;
    apply lookup_singleton_Some in H; destruct H as [<- <-]; reflexivity.
Defined.


End RpcMore.

(** ** Further properties of the HTTP(S) session client *)

Module TransportsMore.

Import Transports TransportsSpec TransportsFacts.

Section Client.

Variable env : Env.

Ltac branch :=
  match goal with
  | |- context [match ?x with _ => _ end] =>
      lazymatch x with
      | context [match _ with _ => _ end] => fail
      | _ => destruct x eqn:?
      end
  end.

Ltac reduce :=
  cbn beta iota;
  cbn [SessionKey Origin Client SessionID entropy net calls logged fst snd].

Ltac run :=
  unfold SessionInit, getPublicKey, getSessionID, Get, Post, toURL,
    http_NewRequest, bind, Do, draw, log_Printf, ret, panic.

(** One attempt, seen from outside: at most two round trips, and none
    only when it panics on the nil key-fetch request; the client keeps
    its origin and its [http.Client]; an error leaves the session ID
    alone; success means the origin parsed and a key is in place. *)
Lemma SessionInit_outcome (s : SliverHTTPClient) (w : World env) :
  exists made,
    calls env (snd (SessionInit env s w)) = calls env w ++ made /\
    (length made <= 2)%nat /\
    (made = [] -> SessionInit env s w = (Panics NilDereference, w)) /\
    forall err s',
      fst (SessionInit env s w) = Returns (err, s') ->
      Origin s' = Origin s /\ Client s' = Client s /\
      (err <> None -> SessionID s' = SessionID s) /\
      (err = None ->
       SessionKey s' <> None /\ url_Parse env (Origin s) <> None).
Proof.
  destruct (url_Parse env (Origin s +:+ "/rsakey")) as [u0|] eqn:Hparse.
  - run. rewrite Hparse.
    repeat (reduce; branch); cbn;
      rewrite <- ?app_assoc; cbn;
      eexists; (split; [reflexivity |]);
      (split; [cbn; lia |]);
      (split; [intros Hnil; discriminate Hnil |]);
      intros err s' Heq; inversion Heq; subst; cbn;
      repeat split; intros; try reflexivity; try congruence.
  - exists []. unfold SessionInit, bind.
    rewrite (getPublicKey_nil_request env s w Hparse). cbn [fst snd].
    rewrite app_nil_r. split; [reflexivity |]. split; [cbn; lia |].
    split; [reflexivity |]. intros err s' H. discriminate H.
Qed.

(** X4.  Whatever [SessionInit] returns, the client is still bound to
    the same origin and the same [http.Client].  When it returns an error
    the session ID is the one the client had before the call; when it
    returns none, the client holds a session key. *)
Theorem SessionInit_session_state (s s' : SliverHTTPClient) (w : World env)
    (err : option error) :
  fst (SessionInit env s w) = Returns (err, s') ->
  Origin s' = Origin s /\ Client s' = Client s /\
  (err <> None -> SessionID s' = SessionID s) /\
  (err = None -> SessionKey s' <> None).
Proof.
  intros H. destruct (SessionInit_outcome s w) as (made & _ & _ & _ & Hout).
  destruct (Hout err s' H) as (Ho & Hc & Hid & Hkey).
  repeat split; try assumption. intros He. now destruct (Hkey He).
Qed.

(** A [getPublicKey] that returns had a request to send. *)
Lemma getPublicKey_returns_parses (s : SliverHTTPClient) (w w1 : World env)
    (o : option RSAPublicKey) :
  getPublicKey env s w = (Returns o, w1) ->
  url_Parse env (Origin s +:+ "/rsakey") <> None.
Proof.
  intros Hpk Hparse.
  rewrite (getPublicKey_nil_request env s w Hparse) in Hpk. discriminate Hpk.
Qed.

(** With a request to send, [getPublicKey] adds the key fetch to the
    calls and nothing else. *)
Lemma getPublicKey_calls (s : SliverHTTPClient) (w : World env) :
  url_Parse env (Origin s +:+ "/rsakey") <> None ->
  calls env (snd (getPublicKey env s w)) = calls env w ++ [rsakeyRequest s].
Proof.
  intros Hparse.
  destruct (getPublicKey_world env s w Hparse) as [lines ->].
  now destruct (withLog_calls env lines (afterFetch s w)) as (-> & _).
Qed.

(** X5.  When the key-fetch request cannot be built, an attempt panics
    before any round trip.  Otherwise it makes the key fetch and then at
    most one more round trip, the handshake POST.  The body of that POST
    is what [RSAEncrypt] returned for the encoded init message of the
    key drawn in this attempt, under the public key just fetched. *)
Theorem SessionInit_round_trips (s : SliverHTTPClient) (w : World env) :
  let w' := snd (SessionInit env s w) in
  (url_Parse env (Origin s +:+ "/rsakey") = None /\
   SessionInit env s w = (Panics NilDereference, w)) \/
  (url_Parse env (Origin s +:+ "/rsakey") <> None /\
   (calls env w' = calls env w ++ [rsakeyRequest s] \/
    exists pk w1 url,
      getPublicKey env s w = (Returns (Some pk), w1) /\
      url_Parse env (Origin s) = Some url /\
      let drawn := RandomAESKey env (entropy env w) in
      let wrapped :=
        RSAEncrypt env (proto_Marshal_HTTPSessionInit env (fst drawn)) pk
          (snd drawn) in
      snd (fst wrapped) = None /\
      calls env w' =
        calls env w ++
          [rsakeyRequest s; startRequest env url (fst (fst wrapped))])).
Proof.
  cbv zeta.
  destruct (url_Parse env (Origin s +:+ "/rsakey")) as [u0|] eqn:Hparse;
    [right; split; [discriminate |]
    | left; split; [reflexivity |];
      unfold SessionInit, bind;
      now rewrite (getPublicKey_nil_request env s w Hparse)].
  assert (Hparse' : url_Parse env (Origin s +:+ "/rsakey") <> None)
    by (rewrite Hparse; discriminate).
  clear Hparse.
  set (w' := snd (SessionInit env s w)).
  assert (Hw' : w' = snd (SessionInit env s w)) by reflexivity. clearbody w'.
  assert (Hc := getPublicKey_calls s w Hparse').
  assert (He := getPublicKey_entropy env s w).
  unfold SessionInit, bind at 1 in Hw'.
  destruct (getPublicKey env s w) as [[[pk|]| why] w1] eqn:Hpk;
    cbn [snd] in Hc, He.
  - unfold bind at 1, draw at 1 in Hw'. rewrite He in Hw'.
    destruct (RandomAESKey env (entropy env w)) as [key e1] eqn:Hkey.
    unfold bind at 1, draw at 1 in Hw'. cbn [entropy] in Hw'.
    destruct (RSAEncrypt env (proto_Marshal_HTTPSessionInit env key) pk e1)
      as [[ct [e|]] e2] eqn:Hwrap.
    + left. unfold bind in Hw'. rewrite log_Printf_withLog in Hw'.
      unfold ret, withLog in Hw'. subst w'. now destruct (Debug env).
    + unfold bind at 1, getSessionID, toURL in Hw'. cbn [Origin] in Hw'.
      destruct (url_Parse env (Origin s)) as [url|] eqn:Hurl.
      * right. exists pk, w1, url.
        split; [reflexivity |]. split; [reflexivity |].
        cbn [fst snd]. rewrite Hwrap. cbn [fst snd].
        split; [reflexivity |].
        unfold bind at 1, ret in Hw'.
        rewrite (http_NewRequest_toURL env "POST" _ "/start" url (Some ct) Hurl)
          in Hw'.
        unfold bind, Do in Hw'. cbn [Client net calls SessionKey] in Hw'.
        fold (startRequest env url ct) in Hw'.
        destruct (Client_Do env (Client s) (startRequest env url ct) (net env w1))
          as [[resp | e] n].
        -- destruct (GCMDecrypt env key (Body resp)) as [sid [e|]];
             subst w'; cbn; rewrite Hc, <- app_assoc; reflexivity.
        -- subst w'. cbn. rewrite Hc, <- app_assoc. reflexivity.
      * left. unfold bind, panic in Hw'. subst w'. exact Hc.
  - left. unfold bind in Hw'. rewrite log_Printf_withLog in Hw'.
    unfold ret, withLog in Hw'. subst w'. now destruct (Debug env).
  - left. subst w'. exact Hc.
Qed.

(** X6.  When the key wrap fails, [SessionInit] returns the error of
    [RSAEncrypt] having made the key fetch and nothing more: no handshake
    POST goes out.  The key it drew stays on the client. *)
Theorem SessionInit_wrap_failure (s : SliverHTTPClient) (w w1 : World env)
    (pk : RSAPublicKey) (key : AESKey) (e1 e2 : Entropy env) (ct : bytes)
    (e : error) :
  getPublicKey env s w = (Returns (Some pk), w1) ->
  RandomAESKey env (entropy env w) = (key, e1) ->
  RSAEncrypt env (proto_Marshal_HTTPSessionInit env key) pk e1
    = ((ct, Some e), e2) ->
  fst (SessionInit env s w) = Returns (Some e, withKey (Some key) s) /\
  calls env (snd (SessionInit env s w)) = calls env w ++ [rsakeyRequest s] /\
  entropy env (snd (SessionInit env s w)) = e2.
Proof.
  intros Hpk Hkey Hwrap.
  assert (Hc := getPublicKey_calls s w (getPublicKey_returns_parses _ _ _ _ Hpk)).
  assert (He := getPublicKey_entropy env s w).
  rewrite Hpk in Hc, He. cbn [snd] in Hc, He.
  assert (Hrun : SessionInit env s w =
            (Returns (Some e, withKey (Some key) s),
             withLog [LogRSAEncryptFailed e]
               {| net := net env w1; entropy := e2;
                  calls := calls env w1; logged := logged env w1 |})).
  { unfold SessionInit, bind at 1. rewrite Hpk.
    unfold bind at 1, draw at 1. rewrite He, Hkey.
    unfold bind at 1, draw at 1. cbn [entropy]. rewrite Hwrap.
    unfold bind. rewrite log_Printf_withLog. reflexivity. }
  rewrite Hrun. cbn [fst snd]. split; [reflexivity |].
  unfold withLog. destruct (Debug env); cbn; (split; [exact Hc | reflexivity]).
Qed.

(** X7.  [HTTPStartSession] returns a client or an error, never both and
    never neither.  A client it returns holds a session key and is one of
    the two it built for the address: the https one with its transport,
    or the http one.  It makes at most four round trips, and none only
    when it panics at once on a nil key-fetch request. *)
Theorem HTTPStartSession_result_shape (address : string) (w : World env) :
  let result := HTTPStartSession env address w in
  match fst result with
  | Returns (Some c, None) =>
      SessionKey c <> None /\
      ((Origin c = "https://" +:+ address /\
        Client c = Client (httpsClient address)) \/
       (Origin c = "http://" +:+ address /\
        Client c = Client (httpClient address)))
  | Returns (None, Some _) => True
  | Returns _ => False
  | Panics _ => True
  end /\
  exists made,
    calls env (snd result) = calls env w ++ made /\
    (length made <= 4)%nat /\
    (made = [] -> result = (Panics NilDereference, w)).
Proof.
  cbv zeta. rewrite HTTPStartSession_cases.
  destruct (SessionInit_outcome (httpsClient address) w)
    as (made1 & Hc1 & Hl1 & Hnil1 & Ho1).
  destruct (SessionInit env (httpsClient address) w) as [o1 w1].
  cbn [fst snd] in *.
  destruct (SessionInit_outcome (httpClient address) w1)
    as (made2 & Hc2 & Hl2 & _ & Ho2).
  destruct (SessionInit env (httpClient address) w1) as [o2 w2].
  cbn [fst snd] in *.
  destruct o1 as [[[e1|] c1]| why1]; cbn [fst snd].
  - assert (Hmade : calls env w2 = calls env w ++ made1 ++ made2)
      by (rewrite Hc2, Hc1, <- app_assoc; reflexivity).
    assert (Hlen : (length (made1 ++ made2) <= 4)%nat)
      by (rewrite length_app; lia).
    assert (Hnon : made1 ++ made2 = [] -> False).
    { intros H. apply app_eq_nil in H. destruct H as [H _].
      specialize (Hnil1 H). discriminate Hnil1. }
    destruct o2 as [[[e2|] c2]| why2]; cbn [fst snd].
    + split; [exact I |].
      exists (made1 ++ made2). repeat split; try assumption.
      intros H. now destruct (Hnon H).
    + split.
      * destruct (Ho2 None c2 eq_refl) as (Ho & Hc & _ & Hk).
        split; [now apply Hk | right; now split].
      * exists (made1 ++ made2). repeat split; try assumption.
        intros H. now destruct (Hnon H).
    + split; [exact I |].
      exists (made1 ++ made2). repeat split; try assumption.
      intros H. now destruct (Hnon H).
  - split.
    + destruct (Ho1 None c1 eq_refl) as (Ho & Hc & _ & Hk).
      split; [now apply Hk | left; now split].
    + exists made1. split; [exact Hc1 |]. split; [lia |].
      intros H. specialize (Hnil1 H). discriminate Hnil1.
  - split; [exact I |].
    exists made1. split; [exact Hc1 |]. split; [lia |].
    intros H. specialize (Hnil1 H). injection Hnil1 as -> ->. reflexivity.
Qed.

(** X8.  A client that came out of a successful [SessionInit] has an
    origin that parses and a key in place, so [Get] and [Post] on it
    always return: neither the nil URL of [toURL] nor a nil session key
    can be met, and the request to a URL that [toURL] returned is never
    nil. *)
Theorem SessionInit_then_Get_Post_return (s s' : SliverHTTPClient)
    (w w1 : World env) :
  SessionInit env s w = (Returns (None, s'), w1) ->
  forall urlPath data w2,
    (exists r, fst (Get env s' urlPath w2) = Returns r) /\
    (exists r, fst (Post env s' urlPath data w2) = Returns r).
Proof.
  intros Hinit urlPath data w2.
  destruct (SessionInit_outcome s w) as (made & _ & _ & _ & Hout).
  rewrite Hinit in Hout. cbn [fst] in Hout.
  destruct (Hout None s' eq_refl) as (Ho & _ & _ & Hok).
  destruct (Hok eq_refl) as [Hkey Hparse]. rewrite <- Ho in Hparse.
  destruct (url_Parse env (Origin s')) as [url|] eqn:Hurl; [| now destruct Hparse].
  destruct (SessionKey s') as [key|] eqn:Hk; [| now destruct Hkey].
  split; run; rewrite Hurl, Hk;
    repeat (reduce; branch); cbn;
    first [ eexists; reflexivity
          | exfalso; eapply (URL_String_parses env _ _ _ Hurl); eassumption ].
Qed.

(** The URL [toURL] builds from a parsed origin. *)
Definition urlFor (url : URL) (urlPath : string) : string :=
  URL_String env
    {| Scheme := Scheme url; Host := Host url;
       Path := path_Join env (Path url) urlPath |}.

Lemma session_guard_open (s : SliverHTTPClient) (key : AESKey) :
  SessionID s <> "" ->
  SessionKey s = Some key ->
  (String.eqb (SessionID s) "" || isNil (SessionKey s))%bool = false.
Proof.
  intros Hid Hkey. apply String.eqb_neq in Hid. now rewrite Hid, Hkey.
Qed.

(** X10.  On a client with a session, a transport error of the round
    trip comes back from [Get] and [Post] as it is, and a response whose
    status is not 200 comes back as "Non-200 response code", whatever its
    body holds.  Neither returns any bytes then. *)
Theorem Get_Post_failures (s : SliverHTTPClient) (urlPath : string)
    (data : bytes) (w : World env) (key : AESKey) (url : URL) :
  SessionID s <> "" ->
  SessionKey s = Some key ->
  url_Parse env (Origin s) = Some url ->
  let u := urlFor url urlPath in
  let sealed := fst (fst (GCMEncrypt env key data (entropy env w))) in
  (forall r n,
      Client_Do env (Client s) (Build_Request "GET" u None) (net env w)
        = (r, n) ->
      match r with
      | inr e => fst (Get env s urlPath w) = Returns ([], Some e)
      | inl resp =>
          StatusCode resp <> 200 ->
          fst (Get env s urlPath w) =
            Returns ([], Some (errors_New "Non-200 response code"))
      end) /\
  (forall r n,
      Client_Do env (Client s) (Build_Request "POST" u (Some sealed))
        (net env w) = (r, n) ->
      match r with
      | inr e => fst (Post env s urlPath data w) = Returns ([], Some e)
      | inl resp =>
          StatusCode resp <> 200 ->
          fst (Post env s urlPath data w) =
            Returns ([], Some (errors_New "Non-200 response code"))
      end).
Proof.
  intros Hid Hkey Hurl u sealed. subst u sealed. unfold urlFor.
  assert (Hguard := session_guard_open s key Hid Hkey).
  split; intros r n Hdo.
  - destruct r as [resp | e]; [intros Hst; apply Z.eqb_neq in Hst |];
      unfold Get; rewrite Hguard;
      unfold toURL, bind, ret, log_Printf; rewrite Hurl; cbn beta iota;
      rewrite (http_NewRequest_toURL env "GET" _ urlPath url None Hurl);
      unfold Do; rewrite Hdo; cbn beta iota; rewrite ?Hst; reflexivity.
  - destruct (GCMEncrypt env key data (entropy env w)) as [[reqData err] ent] eqn:Henc.
    cbn [fst] in Hdo.
    destruct r as [resp | e]; [intros Hst; apply Z.eqb_neq in Hst |];
      unfold Post; rewrite Hguard, Hkey;
      unfold toURL, bind, ret, draw, log_Printf; rewrite Henc, Hurl;
      cbn beta iota;
      rewrite (http_NewRequest_toURL env "POST" _ urlPath url (Some reqData) Hurl);
      unfold Do; cbn [net]; rewrite Hdo; cbn beta iota;
      rewrite ?Hst; reflexivity.
Qed.

(** X11.  On a client with a session and a 200 response, [Get] and
    [Post] return what [GCMDecrypt] makes of the body under the session
    key, bytes and error alike.  Each makes exactly one round trip: [Get]
    a GET without body that leaves the random source alone, [Post] a POST
    whose body is what [GCMEncrypt] returned for the payload under the
    same key. *)
Theorem Get_Post_decrypt_reply (s : SliverHTTPClient) (urlPath : string)
    (data : bytes) (w : World env) (key : AESKey) (url : URL) :
  SessionID s <> "" ->
  SessionKey s = Some key ->
  url_Parse env (Origin s) = Some url ->
  let u := urlFor url urlPath in
  let sealed := GCMEncrypt env key data (entropy env w) in
  (forall resp n,
      Client_Do env (Client s) (Build_Request "GET" u None) (net env w)
        = (inl resp, n) ->
      StatusCode resp = 200 ->
      Get env s urlPath w =
        (Returns (GCMDecrypt env key (Body resp)),
         {| net := n; entropy := entropy env w;
            calls := calls env w ++ [Build_Request "GET" u None];
            logged := logged env w |})) /\
  (forall resp n,
      Client_Do env (Client s)
        (Build_Request "POST" u (Some (fst (fst sealed)))) (net env w)
        = (inl resp, n) ->
      StatusCode resp = 200 ->
      Post env s urlPath data w =
        (Returns (GCMDecrypt env key (Body resp)),
         {| net := n; entropy := snd sealed;
            calls := calls env w ++
                       [Build_Request "POST" u (Some (fst (fst sealed)))];
            logged := logged env w |})).
Proof.
  intros Hid Hkey Hurl u sealed. subst u sealed. unfold urlFor.
  assert (Hguard := session_guard_open s key Hid Hkey).
  split; intros resp n Hdo Hst.
  - unfold Get. rewrite Hguard. unfold toURL, bind at 1. rewrite Hurl.
    unfold ret.
    rewrite (http_NewRequest_toURL env "GET" _ urlPath url None Hurl).
    unfold bind at 1, Do. rewrite Hdo, Hst, Hkey. reflexivity.
  - unfold Post. rewrite Hguard, Hkey. unfold bind at 1, draw.
    destruct (GCMEncrypt env key data (entropy env w)) as [[reqData err] ent].
    cbn [fst snd] in *. unfold toURL, bind at 1. rewrite Hurl. unfold ret.
    rewrite (http_NewRequest_toURL env "POST" _ urlPath url (Some reqData) Hurl).
    unfold bind at 1, Do. cbn [net]. rewrite Hdo, Hst. reflexivity.
Qed.

(** X12.  [toURL] drops the error of [url.Parse].  On a client with a
    session whose origin does not parse, [Get] panics on the nil URL
    before any round trip, leaving the world as it was; [Post] panics
    there too, with no round trip made but the payload already
    encrypted. *)
Theorem Get_Post_unparsable_origin (s : SliverHTTPClient) (urlPath : string)
    (data : bytes) (w : World env) (key : AESKey) :
  SessionID s <> "" ->
  SessionKey s = Some key ->
  url_Parse env (Origin s) = None ->
  Get env s urlPath w = (Panics NilDereference, w) /\
  Post env s urlPath data w =
    (Panics NilDereference,
     {| net := net env w;
        entropy := snd (GCMEncrypt env key data (entropy env w));
        calls := calls env w; logged := logged env w |}).
Proof.
  intros Hid Hkey Hurl.
  assert (Hguard := session_guard_open s key Hid Hkey).
  split.
  - unfold Get. rewrite Hguard. unfold toURL, bind. now rewrite Hurl.
  - unfold Post. rewrite Hguard, Hkey. unfold bind at 1, draw.
    destruct (GCMEncrypt env key data (entropy env w)) as [[reqData err] ent].
    unfold toURL, bind. now rewrite Hurl.
Qed.

(** X14.  An address from which no key-fetch URL can be parsed never
    yields an error.  [http.NewRequest] returns the nil request, its error
    is dropped, and [Client.Do] panics on it: [getPublicKey], [SessionInit]
    and [HTTPStartSession] all end in that panic with no round trip made,
    no key drawn and nothing logged, and the http origin is never tried. *)
Theorem HTTPStartSession_nil_request (address : string) (w : World env) :
  url_Parse env (("https://" +:+ address) +:+ "/rsakey") = None ->
  getPublicKey env (httpsClient address) w = (Panics NilDereference, w) /\
  SessionInit env (httpsClient address) w = (Panics NilDereference, w) /\
  HTTPStartSession env address w = (Panics NilDereference, w).
Proof.
  intros Hparse.
  assert (Hpk := getPublicKey_nil_request env (httpsClient address) w Hparse).
  assert (Hinit := SessionInit_panics env _ _ _ _ Hpk).
  split; [exact Hpk |]. split; [exact Hinit |].
  rewrite HTTPStartSession_cases, Hinit. reflexivity.
Qed.

End Client.

Import TransportsDemo TransportsEdge.

(** X4 on a client that already holds session "abc123" and runs the
    handshake again against a peer that tampers with the reply: the
    attempt fails, the new key is on the client, and the session ID is
    still "abc123". *)
Lemma SessionInit_session_state_witness :
  let e := env false tamperingPeer in
  let s' := withKey (Some K2) established in
  fst (SessionInit e established (world false tamperingPeer [K2])) =
    Returns (Some "cipher: message authentication failed", s') /\
  Origin s' = Origin established /\ Client s' = Client established /\
  (Some "cipher: message authentication failed" <> None ->
   SessionID s' = SessionID established) /\
  (Some "cipher: message authentication failed" = None ->
   SessionKey s' <> None).
Proof.
  cbv zeta. split; [reflexivity |].
  exact (SessionInit_session_state (env false tamperingPeer) established
           (withKey (Some K2) established) (world false tamperingPeer [K2])
           (Some "cipher: message authentication failed") eq_refl).
Defined.

(** X6 on a key as long as the modulus: the wrap is refused and only the
    key fetch has gone out. *)
Lemma SessionInit_wrap_failure_witness :
  let e := env false goodPeer in
  let w := world false goodPeer [longKey] in
  fst (SessionInit e (httpsClient address) w) =
    Returns (Some "crypto/rsa: message too long for RSA public key size",
             withKey (Some longKey) (httpsClient address)) /\
  calls e (snd (SessionInit e (httpsClient address) w)) =
    calls e w ++ [rsakeyRequest (httpsClient address)] /\
  entropy e (snd (SessionInit e (httpsClient address) w)) = [].
Proof.
  exact (SessionInit_wrap_failure (env false goodPeer) (httpsClient address)
           (world false goodPeer [longKey])
           (worldOf false goodPeer None [longKey]
              [rsakeyRequest (httpsClient address)] [])
           {| N := 64; E := 65537 |} longKey [] [] []
           "crypto/rsa: message too long for RSA public key size"
           eq_refl eq_refl eq_refl).
Defined.

(** X8 on the well-behaved peer: the client the handshake leaves can be
    used at once. *)
Lemma SessionInit_then_Get_Post_return_witness :
  let e := env false goodPeer in
  let s' := withKey (Some K1)
              {| Origin := "https://c2.example";
                 Client := Client (httpsClient address);
                 SessionKey := None; SessionID := "abc123" |} in
  let w1 := worldOf false goodPeer (Some K1) [K2]
              [rsakeyRequest (httpsClient address);
               Build_Request "POST" "https://c2.example/start" (Some K1)] [] in
  (exists r, fst (Get e s' "/poll" w1) = Returns r) /\
  (exists r, fst (Post e s' "/poll" (ascii "id") w1) = Returns r).
Proof.
  exact (SessionInit_then_Get_Post_return (env false goodPeer)
           (httpsClient address) _ (world false goodPeer [K1; K2]) _
           eq_refl "/poll" (ascii "id") _).
Defined.

(** X10 twice: a peer that answers 503 with a body that would decrypt,
    and a peer whose plain listener is down. *)
Lemma Get_Post_failures_witness :
  let w := busyWorld [K2] [] in
  let down := worldOf false downPeer (Some K1) [K2] [] [] in
  (fst (Get busyEnv established "/poll" w) =
     Returns ([], Some "Non-200 response code") /\
   fst (Post busyEnv established "/poll" (ascii "id") w) =
     Returns ([], Some "Non-200 response code")) /\
  (fst (Get (env false downPeer) established "/poll" down) =
     Returns ([], Some "dial tcp: connection refused") /\
   fst (Post (env false downPeer) established "/poll" (ascii "id") down) =
     Returns ([], Some "dial tcp: connection refused")).
Proof.
  cbv zeta.
  assert (H503 : (503 <> 200)%Z) by discriminate.
  pose proof (Get_Post_failures busyEnv established "/poll" (ascii "id")
                (busyWorld [K2] [])
                K1 {| Scheme := ""; Host := "http://c2.example"; Path := "" |}
                ltac:(discriminate) eq_refl eq_refl) as [Hget Hpost].
  pose proof (Get_Post_failures (env false downPeer) established "/poll"
                (ascii "id") (worldOf false downPeer (Some K1) [K2] [] [])
                K1 {| Scheme := ""; Host := "http://c2.example"; Path := "" |}
                ltac:(discriminate) eq_refl eq_refl) as [Hget' Hpost'].
  split; split.
  - exact (Hget _ _ eq_refl H503).
  - exact (Hpost _ _ eq_refl H503).
  - exact (Hget' _ _ eq_refl).
  - exact (Hpost' _ _ eq_refl).
Defined.

(** X11 on a peer that knows the session key: both calls come back with
    "pong", and what [Post] put on the wire is the payload under [K1]. *)
Lemma Get_Post_decrypt_reply_witness :
  let e := env false goodPeer in
  let w := worldOf false goodPeer (Some K1) [K2] [] [] in
  Get e established "/poll" w =
    (Returns (ascii "pong", None),
     worldOf false goodPeer (Some K1) [K2]
       [Build_Request "GET" "http://c2.example/poll" None] []) /\
  Post e established "/poll" (ascii "id") w =
    (Returns (ascii "pong", None),
     worldOf false goodPeer (Some K1) []
       [Build_Request "POST" "http://c2.example/poll"
          (Some (K1 ++ ascii "id"))] []).
Proof.
  cbv zeta.
  pose proof (Get_Post_decrypt_reply (env false goodPeer) established "/poll"
                (ascii "id") (worldOf false goodPeer (Some K1) [K2] [] [])
                K1 {| Scheme := ""; Host := "http://c2.example"; Path := "" |}
                ltac:(discriminate) eq_refl eq_refl) as [Hget Hpost].
  split.
  - exact (Hget _ _ eq_refl eq_refl).
  - exact (Hpost _ _ eq_refl eq_refl).
Defined.

(** X12 on an origin with a blank in it. *)
Lemma Get_Post_unparsable_origin_witness :
  let e := strictEnv false goodPeer in
  let w := strictWorld false goodPeer (Some K1) [K2] [] [] in
  Get e blankOrigin "/poll" w = (Panics NilDereference, w) /\
  Post e blankOrigin "/poll" (ascii "id") w =
    (Panics NilDereference, strictWorld false goodPeer (Some K1) [] [] []).
Proof.
  exact (Get_Post_unparsable_origin (strictEnv false goodPeer) blankOrigin
           "/poll" (ascii "id")
           (strictWorld false goodPeer (Some K1) [K2] [] []) K1
           ltac:(discriminate) eq_refl eq_refl).
Defined.

(** X14 on an address with a blank in it, against a peer that would
    answer both origins. *)
Lemma HTTPStartSession_nil_request_witness :
  let e := strictEnv false goodPeer in
  let w := strictWorld false goodPeer None [K1; K2] [] [] in
  getPublicKey e (httpsClient "c2 example") w = (Panics NilDereference, w) /\
  SessionInit e (httpsClient "c2 example") w = (Panics NilDereference, w) /\
  HTTPStartSession e "c2 example" w = (Panics NilDereference, w).
Proof.
  exact (HTTPStartSession_nil_request (strictEnv false goodPeer) "c2 example"
           (strictWorld false goodPeer None [K1; K2] [] []) eq_refl).
Defined.

End TransportsMore.
